(** * hts2wav: label file to waveform, the orchestration of [synthesis/hts2wav.py]

    A shallow embedding of the Python module [src/synthesis/hts2wav.py]:
    the bit-depth heuristic ([estimate_bit_depth], [generate_wav_file]),
    the question-set glue ([set_each_question_path], [load_qst]), the stage
    sequencing of [synthesis] and the artifact emission at the end of
    [hts2wav].

    Conventions.
    - Python exceptions are an outcome [Raise cls] carrying the class name.
    - Effectful code runs in the monad [M]: a function of the [world] (the
      files on disk, the paths that cannot be opened, the trace of what was
      done) to an outcome and the world it leaves behind.  A raise keeps the
      world reached so far.
    - numpy [float64] samples are [float64] below: exact rationals for the
      finite values together with the infinities and NaN.  Rounding and
      signed zeros are not modelled; the special values are, because the
      code can produce them (a division by a zero maximum).
    - The predictors, the vocoder and the label and question-set loaders are
      libraries outside this module; they are the fields of the class
      [Collaborators]. *)

From Stdlib Require Import Ascii QArith Qcanon Qcabs.
From stdpp Require Import base option numbers list strings gmap.

Local Open Scope Z_scope.

(** ** Exceptions and outcomes *)

(** A raised exception, by the name of its class. *)
Definition exn := string.

Inductive outcome (A : Type) : Type :=
| Ok (a : A)
| Raise (e : exn).
Arguments Ok {A} a.
Arguments Raise {A} e.

Definition is_ok {A} (r : outcome A) : bool :=
  match r with Ok _ => true | Raise _ => false end.

(** ** numpy float64 values and arrays *)

Module Np.

Inductive float64 : Type :=
| Fin (q : Qc)          (* a finite value *)
| Inf (negative : bool) (* [inf] and [-inf] *)
| NaN.

Definition of_Z (n : Z) : float64 := Fin (Qc_of_Z n).

Definition Qc_ltb (x y : Qc) : bool := bool_decide (x < y)%Qc.
Definition Qc_is_zero (x : Qc) : bool := bool_decide (x = Qc_of_Z 0).

Definition is_nan (x : float64) : bool :=
  match x with NaN => true | _ => false end.

(** [np.abs] on one element. *)
Definition fabs (x : float64) : float64 :=
  match x with
  | Fin q => Fin (Qcabs q)
  | Inf _ => Inf false
  | NaN => NaN
  end.

(** [x < y]; every comparison with NaN is false. *)
Definition lt (x y : float64) : bool :=
  match x, y with
  | NaN, _ | _, NaN => false
  | Fin a, Fin b => Qc_ltb a b
  | Fin _, Inf negative => negb negative
  | Inf negative, Fin _ => negative
  | Inf n1, Inf n2 => n1 && negb n2
  end.

(** [x > y]. *)
Definition gt (x y : float64) : bool := lt y x.

(** [x / y] of numpy ([true_divide]): a zero divisor gives NaN or an
    infinity (with a warning), never an exception. *)
Definition true_divide (x y : float64) : float64 :=
  match x, y with
  | NaN, _ | _, NaN => NaN
  | Fin a, Fin b =>
      if Qc_is_zero b then
        (if Qc_is_zero a then NaN else Inf (Qc_ltb a (Qc_of_Z 0)))
      else Fin (a / b)%Qc
  | Fin _, Inf _ => Fin (Qc_of_Z 0)
  | Inf negative, Fin b => Inf (xorb negative (Qc_ltb b (Qc_of_Z 0)))
  | Inf _, Inf _ => NaN
  end.

(** [np.maximum]: the larger of two values, NaN if either is NaN. *)
Definition maximum (x y : float64) : float64 :=
  if is_nan x then x else if is_nan y then y else if lt x y then y else x.

(** An array, flattened.  [np.max] and [np.abs] do not depend on the shape. *)
Definition ndarray := list float64.

Definition abs (a : ndarray) : ndarray := map fabs a.

(** [np.max]: raises [ValueError] on an array without elements. *)
Definition max (a : ndarray) : outcome float64 :=
  match a with
  | [] => Raise "ValueError"
  | x :: rest => Ok (foldl maximum x rest)
  end.

(** [a / d] with a scalar [d], element by element. *)
Definition div_scalar (a : ndarray) (d : float64) : ndarray :=
  map (fun x => true_divide x d) a.

(** [np.arange(start, stop)] on integers. *)
Definition arange (start stop : Z) : list Z :=
  map (fun i => start + Z.of_nat i) (seq 0 (Z.to_nat (stop - start))).

End Np.

Export Np(float64, ndarray).

(** ** Bit depth *)

(** [estimate_bit_depth] *)
Definition estimate_bit_depth (wav : ndarray) : outcome string :=
  match Np.max (Np.abs wav) with
  | Raise e => Raise e
  | Ok max_gain =>
      if Np.gt max_gain (Np.of_Z 8388608) then Ok "int32"
      else if Np.gt max_gain (Np.of_Z 8) then Ok "int16"
      else Ok "float"
  end.

(** The [if]/[elif] chain of [generate_wav_file] on the estimated depth. *)
Definition scale_by_bit_depth (training_data_bit_depth : string) (wav : ndarray)
  : outcome ndarray :=
  if String.eqb training_data_bit_depth "int16" then
    Ok (Np.div_scalar wav (Np.of_Z 32767))
  else if String.eqb training_data_bit_depth "int32" then
    Ok (Np.div_scalar wav (Np.of_Z 2147483647))
  else if String.eqb training_data_bit_depth "float" then
    Ok wav
  else Raise "ValueError".

(** Lines 89 to 102 of [generate_wav_file]: estimate, then scale. *)
Definition bit_depth_step (wav : ndarray) : outcome ndarray :=
  match estimate_bit_depth wav with
  | Raise e => Raise e
  | Ok training_data_bit_depth => scale_by_bit_depth training_data_bit_depth wav
  end.

(** Lines 105 and 106: [wav / np.max(np.abs(wav))] when [gain_normalize]. *)
Definition gain_step (gain_normalize : bool) (wav : ndarray) : outcome ndarray :=
  if gain_normalize then
    match Np.max (Np.abs wav) with
    | Raise e => Raise e
    | Ok m => Ok (Np.div_scalar wav m)
    end
  else Ok wav.

(** The samples [generate_wav_file] hands to [wavfile.write]. *)
Definition normalize_wav (gain_normalize : bool) (wav : ndarray) : outcome ndarray :=
  match bit_depth_step wav with
  | Raise e => Raise e
  | Ok wav' => gain_step gain_normalize wav'
  end.

(** ** Python string operations used by the module

    A [str] is a [string]; its characters are the code points below 256. *)

Module Py.

Local Open Scope string_scope.

Definition code (c : ascii) : N := Ascii.N_of_ascii c.

(** [str.isspace] on one character, for the code points below 256. *)
Definition isspace (c : ascii) : bool :=
  let n := code c in
  ((9 <=? n) && (n <=? 13) || (28 <=? n) && (n <=? 32)
   || (n =? 133) || (n =? 160))%N.

(** The characters at which [str.splitlines] breaks a line. *)
Definition is_linebreak (c : ascii) : bool :=
  let n := code c in
  ((10 <=? n) && (n <=? 13) || (28 <=? n) && (n <=? 30) || (n =? 133))%N.

(** [s + c] for one character. *)
Definition snoc (s : string) (c : ascii) : string := s ++ String c "".

Definition is_empty (s : string) : bool :=
  match s with "" => true | _ => false end.

(** [str.split()] without arguments: the maximal runs of characters that
    are not whitespace.  [cur] is the token being read. *)
Fixpoint split_from (cur : string) (s : string) : list string :=
  match s with
  | "" => if is_empty cur then [] else [cur]
  | String c s' =>
      if isspace c then
        (if is_empty cur then split_from "" s' else cur :: split_from "" s')
      else split_from (snoc cur c) s'
  end.

Definition split (s : string) : list string := split_from "" s.

(** [str.splitlines()]: [\r\n] counts as one break, and a break at the very
    end does not open a further, empty line.  [pending] tells whether a
    line is open, [after_cr] whether the previous character was [\r]. *)
Fixpoint splitlines_from (cur : string) (pending after_cr : bool) (s : string)
  : list string :=
  match s with
  | "" => if pending then [cur] else []
  | String c s' =>
      if after_cr && (code c =? 10)%N then splitlines_from "" false false s'
      else if is_linebreak c then
        cur :: splitlines_from "" false (code c =? 13)%N s'
      else splitlines_from (snoc cur c) true false s'
  end.

Definition splitlines (s : string) : list string :=
  splitlines_from "" false false s.

(** [s.startswith(sub)] *)
Definition startswith (s sub : string) : bool := String.prefix sub s.

(** [str.find(sub)]: the index of the first occurrence, or [-1]. *)
Fixpoint find_from (i : Z) (sub s : string) : Z :=
  if startswith s sub then i
  else match s with
       | "" => -1
       | String _ s' => find_from (i + 1) sub s'
       end.

Definition find (s sub : string) : Z := find_from 0 sub s.

Definition len (s : string) : Z := Z.of_nat (String.length s).

(** A slice bound brought into [0 .. len]: negative bounds count from the
    end. *)
Definition clamp (n i : Z) : Z :=
  if (i <? 0)%Z then Z.max (i + n) 0 else Z.min i n.

(** [s[start:stop]] *)
Definition slice (s : string) (start stop : Z) : string :=
  let lo := clamp (len s) start in
  let hi := clamp (len s) stop in
  if (lo <? hi)%Z then String.substring (Z.to_nat lo) (Z.to_nat (hi - lo)) s
  else "".

(** [str.replace(old, new)]: every occurrence of [old], left to right and
    without overlap.  [skip] counts the characters of an occurrence that
    are still to be passed over. *)
Fixpoint replace_from (skip : nat) (old new s : string) : string :=
  match s with
  | "" => if is_empty old then new else ""
  | String c s' =>
      match skip with
      | S k => replace_from k old new s'
      | O =>
          if startswith s old then
            new ++ (if is_empty old then String c (replace_from 0 old new s')
                    else replace_from (String.length old - 1) old new s')
          else String c (replace_from 0 old new s')
      end
  end.

Definition replace (s old new : string) : string := replace_from 0 old new s.

(** [c in chars] *)
Fixpoint mem (c : ascii) (chars : string) : bool :=
  match chars with
  | "" => false
  | String c' chars' => Ascii.eqb c c' || mem c chars'
  end.

(** [str.lstrip(chars)] *)
Fixpoint lstrip (chars s : string) : string :=
  match s with
  | "" => ""
  | String c s' => if mem c chars then lstrip chars s' else s
  end.

(** [str.rstrip(chars)] *)
Fixpoint rstrip (chars s : string) : string :=
  match s with
  | "" => ""
  | String c s' =>
      let r := rstrip chars s' in
      if is_empty r && mem c chars then "" else String c r
  end.

(** [str.strip(chars)] *)
Definition strip (chars s : string) : string := rstrip chars (lstrip chars s).

(** The string of one double quote, the argument of [strip] in [main]. *)
Definition dquote : string := String "034" "".

End Py.

(** ** The world and the effect monad *)

(** What a file holds. *)
Inductive content : Type :=
| Truncated                               (* opened for writing, nothing written *)
| Text (s : string)                       (* [f.write(s)] in text mode *)
| Float64Dump (a : ndarray)               (* [a.astype(np.float64).tofile(f)] *)
| WavFloat32 (rate : Z) (data : ndarray). (* [wavfile.write] of float32 samples *)

Inductive event : Type :=
| Called (name : string)            (* a call into an outside library *)
| Opened (path : string)            (* a file created or truncated by [open] *)
| Wrote (path : string) (c : content).

Record world : Type := World {
  files : gmap string content;  (* the files on disk *)
  denied : gset string;         (* the paths [open] cannot open for writing *)
  trace : list event;           (* what was done, oldest first *)
}.

Definition M (A : Type) : Type := world -> outcome A * world.

Definition ret {A} (a : A) : M A := fun w => (Ok a, w).

Definition bind {A B} (c : M A) (k : A -> M B) : M B :=
  fun w => match c w with
           | (Ok a, w') => k a w'
           | (Raise e, w') => (Raise e, w')
           end.

Definition raise {A} (e : exn) : M A := fun w => (Raise e, w).

Notation "'do' x <- c ; k" := (bind c (fun x => k))
  (at level 10, x pattern, c at level 100, k at level 200).
Notation "'run' c ; k" := (bind c (fun _ => k))
  (at level 10, c at level 100, k at level 200).

Definition log (ev : event) (w : world) : world :=
  World (files w) (denied w) (trace w ++ [ev]).

(** A call into an outside library: recorded, then its outcome. *)
Definition call {A} (name : string) (r : outcome A) : M A :=
  fun w => (r, log (Called name) w).

(** [open(path, 'w')]: the file exists and is empty afterwards.  A path
    that cannot be opened raises [OSError] or one of its subclasses
    ([FileNotFoundError], [PermissionError], ...), which one depending on
    the file system; the model has the base class stand for all of them. *)
Definition open_w (path : string) : M unit :=
  fun w =>
    if bool_decide (path ∈ denied w) then (Raise "OSError", w)
    else (Ok tt, World (<[path := Truncated]> (files w)) (denied w)
                       (trace w ++ [Opened path])).

(** The data written through an open file, on disk once it is closed. *)
Definition write (path : string) (c : content) : M unit :=
  fun w => (Ok tt, World (<[path := c]> (files w)) (denied w)
                         (trace w ++ [Wrote path c])).

(** A pure step that may raise. *)
Definition lift {A} (r : outcome A) : M A := fun w => (r, w).

(** ** Configuration *)

Inductive stage : Type := timelag | duration | acoustic.

Definition stage_name (typ : stage) : string :=
  match typ with
  | timelag => "timelag" | duration => "duration" | acoustic => "acoustic"
  end.

(** [config[typ]] *)
Record stage_config : Type := StageConfig {
  checkpoint : option string;
  question_path : option string;
  allowed_range : list Z;      (* read for [timelag] *)
  subphone_features : string;  (* read for [acoustic] *)
  post_filter : bool;          (* read for [acoustic] *)
  relative_f0 : bool;          (* read for [acoustic] *)
}.

Record config : Type := Config {
  model_dir : string;
  cfg_timelag : stage_config;
  cfg_duration : stage_config;
  cfg_acoustic : stage_config;
  global_question_path : option string;   (* [config.question_path] *)
  ground_truth_duration : bool;
  gain_normalize : bool;
  log_f0_conditioning : bool;
  sample_rate : Z;
  frame_period : Z;
  cfg_label_path : option string;    (* [config.label_path] *)
  cfg_out_wav_path : option string;  (* [config.out_wav_path] *)
}.

Definition get_stage (cfg : config) (typ : stage) : stage_config :=
  match typ with
  | timelag => cfg_timelag cfg
  | duration => cfg_duration cfg
  | acoustic => cfg_acoustic cfg
  end.

Definition set_stage (cfg : config) (typ : stage) (sc : stage_config) : config :=
  match typ with
  | timelag =>
      Config (model_dir cfg) sc (cfg_duration cfg) (cfg_acoustic cfg)
        (global_question_path cfg) (ground_truth_duration cfg) (gain_normalize cfg)
        (log_f0_conditioning cfg) (sample_rate cfg) (frame_period cfg)
        (cfg_label_path cfg) (cfg_out_wav_path cfg)
  | duration =>
      Config (model_dir cfg) (cfg_timelag cfg) sc (cfg_acoustic cfg)
        (global_question_path cfg) (ground_truth_duration cfg) (gain_normalize cfg)
        (log_f0_conditioning cfg) (sample_rate cfg) (frame_period cfg)
        (cfg_label_path cfg) (cfg_out_wav_path cfg)
  | acoustic =>
      Config (model_dir cfg) (cfg_timelag cfg) (cfg_duration cfg) sc
        (global_question_path cfg) (ground_truth_duration cfg) (gain_normalize cfg)
        (log_f0_conditioning cfg) (sample_rate cfg) (frame_period cfg)
        (cfg_label_path cfg) (cfg_out_wav_path cfg)
  end.

Definition set_question_path (sc : stage_config) (p : option string) : stage_config :=
  StageConfig (checkpoint sc) p (allowed_range sc) (subphone_features sc)
    (post_filter sc) (relative_f0 sc).

Definition set_checkpoint (sc : stage_config) (p : option string) : stage_config :=
  StageConfig p (question_path sc) (allowed_range sc) (subphone_features sc)
    (post_filter sc) (relative_f0 sc).

(** [set_each_question_path]: a stage without a question set of its own
    takes the global one, whatever that is. *)
Definition set_each_question_path (cfg : config) : config :=
  foldl (fun cfg typ =>
           match question_path (get_stage cfg typ) with
           | None =>
               set_stage cfg typ
                 (set_question_path (get_stage cfg typ) (global_question_path cfg))
           | Some p =>
               set_stage cfg typ (set_question_path (get_stage cfg typ) (Some p))
           end)
        cfg [timelag; duration; acoustic].

(** ** The libraries around the module *)

(** A question set as [hts.load_question_set] returns it: a dictionary
    from the index of a question to its name and patterns. *)
Definition question_dict := gmap nat (string * list string).

(** [len(d)] *)
Definition dict_len (d : question_dict) : Z := Z.of_nat (size d).

Class Collaborators : Type := {
  Labels : Type;       (* [HTSLabelFile] *)
  Model : Type;
  ModelConfig : Type;  (* the [model.yaml] of a stage *)
  Scaler : Type;
  Lag : Type;
  Durations : Type;
  Features : Type;
  (* [hts.load(label_path).round_()] *)
  hts_load : string -> outcome Labels;
  (* [str(labels)] *)
  labels_str : Labels -> string;
  (* [hts.load_question_set(question_path, append_hat_for_LL=...)] *)
  hts_load_question_set :
    option string -> bool -> outcome (question_dict * question_dict);
  predict_timelag :
    string -> Labels -> Model -> ModelConfig -> Scaler -> Scaler ->
    question_dict -> question_dict -> list Z -> bool -> list Z -> outcome Lag;
  predict_duration :
    string -> Labels -> Model -> ModelConfig -> Scaler -> Scaler -> Lag ->
    question_dict -> question_dict -> list Z -> bool -> outcome Durations;
  postprocess_duration : Labels -> Durations -> Lag -> outcome Labels;
  predict_acoustic :
    string -> Labels -> Model -> ModelConfig -> Scaler -> Scaler ->
    question_dict -> question_dict -> string -> list Z -> bool -> outcome Features;
  stream_sizes : ModelConfig -> list Z;
  has_dynamic_features : ModelConfig -> list bool;
  num_windows : ModelConfig -> Z;
  gen_waveform :
    Labels -> Features -> question_dict -> question_dict ->
    list Z -> list bool -> string -> bool -> Z -> Z -> bool -> Z -> Z -> bool ->
    outcome (ndarray * ndarray * ndarray * ndarray);
  (* [torch.cuda.is_available()] *)
  cuda_is_available : bool;
  (* [os.path.join] *)
  path_join : list string -> string;
  (* [nnsvs.bin.synthesis.maybe_set_normalization_stats_] *)
  maybe_set_normalization_stats_ : config -> outcome config;
  (* lines 243 to 273 of [hts2wav] for one stage: [OmegaConf.load] of the
     stage's model.yaml, [hydra.utils.instantiate], [torch.load] of the
     checkpoint, [joblib.load] of the two scalers *)
  load_stage : string -> config -> stage -> outcome (ModelConfig * Model * Scaler * Scaler);
}.

Section Pipeline.

Context {C : Collaborators}.

(** [maybe_set_checkpoints_] *)
Definition maybe_set_checkpoints_ (cfg : config) : config :=
  foldl (fun cfg typ =>
           match checkpoint (get_stage cfg typ) with
           | None =>
               set_stage cfg typ
                 (set_checkpoint (get_stage cfg typ)
                    (Some (path_join [model_dir cfg; stage_name typ; "best_loss.pth"%string])))
           | Some c =>
               set_stage cfg typ
                 (set_checkpoint (get_stage cfg typ)
                    (Some (path_join [model_dir cfg; stage_name typ; c])))
           end)
        cfg [timelag; duration; acoustic].

(** [load_qst] *)
Definition load_qst (question_path : option string) (append_hat_for_LL : bool)
  : M (question_dict * question_dict * list Z * Z) :=
  do (binary_dict, continuous_dict) <-
    call "hts.load_question_set"
      (hts_load_question_set question_path append_hat_for_LL);
  let pitch_indices := Np.arange (dict_len binary_dict) (dict_len binary_dict + 3) in
  let pitch_idx := dict_len binary_dict + 1 in
  ret (binary_dict, continuous_dict, pitch_indices, pitch_idx).

(** Lines 150 to 184 of [synthesis]: the timeline the acoustic stage gets. *)
Definition resolve_timing (cfg : config) (device : string) (labels : Labels)
    (timelag_model : Model) (timelag_config : ModelConfig)
    (timelag_in_scaler timelag_out_scaler : Scaler)
    (duration_model : Model) (duration_config : ModelConfig)
    (duration_in_scaler duration_out_scaler : Scaler) : M Labels :=
  if ground_truth_duration cfg then
    ret labels
  else
    do (timelag_binary_dict, timelag_continuous_dict, timelag_pitch_indices, _) <-
      load_qst (question_path (cfg_timelag cfg)) false;
    do lag <-
      call "predict_timelag"
        (predict_timelag device labels timelag_model timelag_config
           timelag_in_scaler timelag_out_scaler
           timelag_binary_dict timelag_continuous_dict timelag_pitch_indices
           (log_f0_conditioning cfg) (allowed_range (cfg_timelag cfg)));
    do (duration_binary_dict, duration_continuous_dict, duration_pitch_indices, _) <-
      load_qst (question_path (cfg_duration cfg)) false;
    do durations <-
      call "predict_duration"
        (predict_duration device labels duration_model duration_config
           duration_in_scaler duration_out_scaler lag
           duration_binary_dict duration_continuous_dict duration_pitch_indices
           (log_f0_conditioning cfg));
    call "postprocess_duration" (postprocess_duration labels durations lag).

(** [synthesis] *)
Definition synthesis (cfg : config) (device : string) (label_path : string)
    (timelag_model : Model) (timelag_config : ModelConfig)
    (timelag_in_scaler timelag_out_scaler : Scaler)
    (duration_model : Model) (duration_config : ModelConfig)
    (duration_in_scaler duration_out_scaler : Scaler)
    (acoustic_model : Model) (acoustic_config : ModelConfig)
    (acoustic_in_scaler acoustic_out_scaler : Scaler)
  : M (Labels * ndarray * ndarray * ndarray * ndarray) :=
  do labels <- call "hts.load" (hts_load label_path);
  let cfg := set_each_question_path cfg in
  do duration_modified_labels <-
    resolve_timing cfg device labels
      timelag_model timelag_config timelag_in_scaler timelag_out_scaler
      duration_model duration_config duration_in_scaler duration_out_scaler;
  do (acoustic_binary_dict, acoustic_continuous_dict,
       acoustic_pitch_indices, acoustic_pitch_idx) <-
    load_qst (question_path (cfg_acoustic cfg)) false;
  do acoustic_features <-
    call "predict_acoustic"
      (predict_acoustic device duration_modified_labels
         acoustic_model acoustic_config acoustic_in_scaler acoustic_out_scaler
         acoustic_binary_dict acoustic_continuous_dict
         (subphone_features (cfg_acoustic cfg)) acoustic_pitch_indices
         (log_f0_conditioning cfg));
  do (f0, mgc, bap, generated_waveform) <-
    call "gen_waveform"
      (gen_waveform duration_modified_labels acoustic_features
         acoustic_binary_dict acoustic_continuous_dict
         (stream_sizes acoustic_config) (has_dynamic_features acoustic_config)
         (subphone_features (cfg_acoustic cfg)) (log_f0_conditioning cfg)
         acoustic_pitch_idx (num_windows acoustic_config)
         (post_filter (cfg_acoustic cfg)) (sample_rate cfg) (frame_period cfg)
         (relative_f0 (cfg_acoustic cfg)));
  ret (duration_modified_labels, f0, mgc, bap, generated_waveform).

(** The body of the loop at lines 303 to 305: one line of the stringified
    timeline to one line of the timing file.  The unpacking of
    [line.split()] into three names raises unless there are exactly three
    tokens. *)
Definition timing_line (line : string) : outcome string :=
  match Py.split line with
  | [t_start; t_end; context] =>
      let context :=
        Py.slice context (Py.find context "-" + 1) (Py.find context "+") in
      Ok (t_start ++ " " ++ t_end ++ " " ++ context ++ String "010" "")%string
  | _ => Raise "ValueError"
  end.

(** The loop at lines 301 to 305, [s] being the text built so far. *)
Fixpoint timing_text (s : string) (lines : list string) : outcome string :=
  match lines with
  | [] => Ok s
  | line :: rest =>
      match timing_line line with
      | Raise e => Raise e
      | Ok l => timing_text (s ++ l)%string rest
      end
  end.

(** The header [wavfile.write] builds for one channel of float32 samples,
    after it has opened the file.  The rate and the bytes per second
    ([4 * rate]) are packed as unsigned 32-bit integers, then the number of
    samples; the size of the file has to fit 32 bits. *)
Definition wavfile_header (rate : Z) (data : ndarray) : outcome unit :=
  let n := Z.of_nat (length data) in
  if negb ((0 <=? rate) && (rate * 4 <? 2 ^ 32)) then Raise "struct.error"
  else if negb (n <? 2 ^ 32) then Raise "struct.error"
  else if 4294967295 <? 50 + 4 * n then Raise "ValueError"
  else Ok tt.

(** [wavfile.write(path, rate, data)]: the file is opened first and closed
    whatever happens; the waveform has one dimension. *)
Definition wavfile_write (path : string) (rate : Z) (data : ndarray) : M unit :=
  run open_w path;
  run lift (wavfile_header rate data);
  write path (WavFloat32 rate data).

(** [generate_wav_file].  The cast [wav.astype(np.float32)] is the tag
    [WavFloat32] of what is written; its rounding is not modelled. *)
Definition generate_wav_file (cfg : config) (wav : ndarray) (out_wav_path : string)
  : M unit :=
  do wav <- lift (bit_depth_step wav);
  do wav <- lift (gain_step (gain_normalize cfg) wav);
  wavfile_write out_wav_path (sample_rate cfg) wav.

(** [open(path, 'wb')] and [a.astype(np.float64).tofile(f)] *)
Definition dump_float64 (path : string) (a : ndarray) : M unit :=
  run open_w path;
  write path (Float64Dump a).

(** Lines 299 to 306 of [hts2wav]: the timing file. *)
Definition write_timing_lab (path : string) (duration_modified_labels : Labels)
  : M unit :=
  run open_w path;
  let lines := Py.splitlines (labels_str duration_modified_labels) in
  do s <- lift (timing_text "" lines);
  write path (Text s).

(** Lines 298 to 314 of [hts2wav]: the five files. *)
Definition write_outputs (cfg : config) (out_wav_path : string)
    (duration_modified_labels : Labels) (f0 sp bap wav : ndarray) : M unit :=
  run write_timing_lab (Py.replace out_wav_path ".wav" "_timing.lab")
        duration_modified_labels;
  run dump_float64 (Py.replace out_wav_path ".wav" ".f0") f0;
  run dump_float64 (Py.replace out_wav_path ".wav" ".mgc") sp;
  run dump_float64 (Py.replace out_wav_path ".wav" ".bap") bap;
  generate_wav_file cfg wav out_wav_path.

(** [hts2wav].  Logging is left out. *)
Definition hts2wav (cfg : config) (label_path out_wav_path : option string) : M unit :=
  let device := if cuda_is_available then "cuda"%string else "cpu"%string in
  let cfg := maybe_set_checkpoints_ cfg in
  do cfg <- call "maybe_set_normalization_stats_" (maybe_set_normalization_stats_ cfg);
  do (timelag_config, timelag_model, timelag_in_scaler, timelag_out_scaler) <-
    call "load timelag" (load_stage device cfg timelag);
  do (duration_config, duration_model, duration_in_scaler, duration_out_scaler) <-
    call "load duration" (load_stage device cfg duration);
  do (acoustic_config, acoustic_model, acoustic_in_scaler, acoustic_out_scaler) <-
    call "load acoustic" (load_stage device cfg acoustic);
  do label_path <-
    match label_path with
    | None =>
        match cfg_label_path cfg with
        | None => raise "AssertionError"
        | Some p => ret p
        end
    | Some p => ret p
    end;
  let out_wav_path :=
    match out_wav_path with
    | None => cfg_out_wav_path cfg
    | Some p => Some p
    end in
  do (duration_modified_labels, f0, sp, bap, wav) <-
    synthesis cfg device label_path
      timelag_model timelag_config timelag_in_scaler timelag_out_scaler
      duration_model duration_config duration_in_scaler duration_out_scaler
      acoustic_model acoustic_config acoustic_in_scaler acoustic_out_scaler;
  match out_wav_path with
  | None => raise "AttributeError"   (* [None.replace] *)
  | Some out_wav_path =>
      write_outputs cfg out_wav_path duration_modified_labels f0 sp bap wav
  end.

End Pipeline.

(** ** The command line *)

(** What [main] uses of [os.path], hydra and the clock. *)
Class Shell : Type := {
  (* [os.path.split] *)
  os_path_split : string -> string * string;
  (* [os.path.splitext] *)
  os_path_splitext : string -> string * string;
  (* [os.path.relpath] *)
  os_path_relpath : string -> outcome string;
  (* [hydra.experimental.initialize(config_path=...)] *)
  hydra_initialize : string -> outcome unit;
  (* [hydra.experimental.compose(config_name=..., overrides=...)] *)
  hydra_compose : string -> list string -> outcome config;
  (* [datetime.now().strftime(format)] *)
  now_strftime : string -> string;
}.

Section Main.

Context {C : Collaborators} {S : Shell}.

(** [input(prompt)] with the double quotes stripped, the lines of standard
    input being [stdin]. *)
Definition input_stripped (stdin : list string) : M (string * list string) :=
  match stdin with
  | [] => call "input" (Raise "EOFError")
  | line :: rest => call "input" (Ok (Py.strip Py.dquote line, rest))
  end.

(** [main], [argv] being [sys.argv]. *)
Definition main (argv stdin : list string) : M unit :=
  do (voicebank_config_yaml_path, label_path, out_wav_path) <-
    match argv with
    | _ :: a1 :: a2 :: a3 :: _ =>
        ret (Py.strip Py.dquote a1, Py.strip Py.dquote a2, Py.strip Py.dquote a3)
    | _ =>
        do (voicebank_config_yaml_path, stdin) <- input_stripped stdin;
        do (label_path, _) <- input_stripped stdin;
        ret (voicebank_config_yaml_path, label_path,
             (fst (os_path_splitext label_path) ++ ".wav")%string)
    end;
  let (config_path, config_name) := os_path_split voicebank_config_yaml_path in
  do rel <- call "os.path.relpath" (os_path_relpath config_path);
  run call "hydra.initialize" (hydra_initialize rel);
  do cfg <-
    call "hydra.compose"
      (hydra_compose config_name [("+config_path=" ++ config_path)%string]);
  let str_now := now_strftime "%Y%m%d%h%M%S" in
  let out_wav_path :=
    Py.replace out_wav_path ".wav" ("__" ++ str_now ++ ".wav")%string in
  hts2wav cfg (Some label_path) (Some out_wav_path).

End Main.

(** ** What a run is expected to leave behind *)

(** The files after the events [evs], oldest first, starting from [fs]. *)
Definition replay (evs : list event) (fs : gmap string content) : gmap string content :=
  foldl (fun fs ev =>
           match ev with
           | Called _ => fs
           | Opened path => <[path := Truncated]> fs
           | Wrote path c => <[path := c]> fs
           end) fs evs.

(** The file an event is about. *)
Definition event_path (ev : event) : option string :=
  match ev with
  | Called _ => None
  | Opened path => Some path
  | Wrote path _ => Some path
  end.

Definition from_ok {A} (d : A) (r : outcome A) : A :=
  match r with Ok a => a | Raise _ => d end.

Section Plan.

Context {C : Collaborators}.

(** The file events of a complete run of lines 298 to 314, in order. *)
Definition planned_writes (cfg : config) (out_wav_path : string)
    (duration_modified_labels : Labels) (f0 sp bap wav : ndarray) : list event :=
  let lab := Py.replace out_wav_path ".wav" "_timing.lab" in
  let lines := Py.splitlines (labels_str duration_modified_labels) in
  [ Opened lab;
    Wrote lab (Text (from_ok ""%string (timing_text "" lines)));
    Opened (Py.replace out_wav_path ".wav" ".f0");
    Wrote (Py.replace out_wav_path ".wav" ".f0") (Float64Dump f0);
    Opened (Py.replace out_wav_path ".wav" ".mgc");
    Wrote (Py.replace out_wav_path ".wav" ".mgc") (Float64Dump sp);
    Opened (Py.replace out_wav_path ".wav" ".bap");
    Wrote (Py.replace out_wav_path ".wav" ".bap") (Float64Dump bap);
    Opened out_wav_path;
    Wrote out_wav_path
      (WavFloat32 (sample_rate cfg)
         (from_ok [] (normalize_wav (gain_normalize cfg) wav))) ].

End Plan.

(** [sub] occurs in [s]. *)
Definition occurs_in (sub s : string) : Prop :=
  exists a b : string, s = (a ++ sub ++ b)%string.

(** No character of [s] is whitespace. *)
Fixpoint no_space (s : string) : bool :=
  match s with
  | EmptyString => true
  | String c s' => negb (Py.isspace c) && no_space s'
  end.

(** The character [c] does not occur in [s]. *)
Fixpoint lacks (c : ascii) (s : string) : bool :=
  match s with
  | EmptyString => true
  | String c' s' => negb (Ascii.eqb c' c) && lacks c s'
  end.

(** A token of a label line: not empty, no whitespace. *)
Definition is_token (s : string) : bool := negb (Py.is_empty s) && no_space s.

(** Every character of [s] is whitespace. *)
Fixpoint all_space (s : string) : bool :=
  match s with
  | EmptyString => true
  | String c s' => Py.isspace c && all_space s'
  end.

(** No character of [s] ends a line. *)
Fixpoint no_linebreak (s : string) : bool :=
  match s with
  | EmptyString => true
  | String c s' => negb (Py.is_linebreak c) && no_linebreak s'
  end.

(** The lines, each followed by a newline. *)
Definition unlines (lines : list string) : string :=
  foldr (fun line rest => (line ++ String "010" rest)%string) ""%string lines.

(** ** Stand-ins for the outside libraries, for concrete runs *)

Module Stub.

Definition questions (n : nat) : question_dict :=
  list_to_map (map (fun i => (i, ("Q"%string, ["*"%string]))) (seq 0 n)).

(** A loader that, like [open(None)], raises [TypeError] without a path
    and otherwise returns [n] binary questions and one continuous one. *)
Definition load_question_set (n : nat) (path : option string) (_ : bool)
  : outcome (question_dict * question_dict) :=
  match path with
  | None => Raise "TypeError"
  | Some _ => Ok (questions n, questions 1)
  end.

(** Labels are their own text; the predictors return the timeline they
    were given; the vocoder returns [waveform] and three fixed streams. *)
Definition collaborators (text : string) (n : nat) (waveform : ndarray)
  : Collaborators := {|
  Labels := string;
  Model := unit;
  ModelConfig := unit;
  Scaler := unit;
  Lag := unit;
  Durations := unit;
  Features := unit;
  hts_load := fun _ => Ok text;
  labels_str := fun l => l;
  hts_load_question_set := load_question_set n;
  predict_timelag := fun _ _ _ _ _ _ _ _ _ _ _ => Ok tt;
  predict_duration := fun _ _ _ _ _ _ _ _ _ _ _ => Ok tt;
  postprocess_duration := fun l _ _ => Ok l;
  predict_acoustic := fun _ _ _ _ _ _ _ _ _ _ _ => Ok tt;
  stream_sizes := fun _ => [180; 3; 1; 15];
  has_dynamic_features := fun _ => [true; true; false; true];
  num_windows := fun _ => 3;
  gen_waveform := fun _ _ _ _ _ _ _ _ _ _ _ _ _ _ =>
    Ok ([Np.of_Z 440], [Np.of_Z 1], [Np.of_Z 2], waveform);
  cuda_is_available := false;
  path_join := fun parts => foldr (fun a b => (a ++ "/" ++ b)%string) ""%string parts;
  maybe_set_normalization_stats_ := fun cfg => Ok cfg;
  load_stage := fun _ _ _ => Ok (tt, tt, tt, tt);
|}.

Definition stage_cfg (question_path : option string) : stage_config :=
  StageConfig None question_path [-20; 20] "coarse_coded" false false.

(** A configuration with the question-set paths and the two flags given. *)
Definition cfg (timelag_q duration_q acoustic_q global_q : option string)
    (ground_truth gain : bool) : config :=
  Config "model" (stage_cfg timelag_q) (stage_cfg duration_q) (stage_cfg acoustic_q)
    global_q ground_truth gain false 44100 5 None None.

Definition empty_world : world := World ∅ ∅ [].

(** A shell whose configuration file composes to [c] and whose clock
    prints [now]. *)
Definition shell (c : config) (now : string) : Shell := {|
  os_path_split := fun _ => ("voice"%string, "config.yaml"%string);
  os_path_splitext := fun _ => ("song"%string, ".lab"%string);
  os_path_relpath := fun p => Ok p;
  hydra_initialize := fun _ => Ok tt;
  hydra_compose := fun _ _ => Ok c;
  now_strftime := fun _ => now;
|}.





Definition two_lines : string :=
  ("0 50 a^b-c+d=e" ++ String "010" ("50 100 b^c-d+e=f" ++ String "010" ""))%string.

Definition broken_lines : string :=
  ("0 50 a^b-c+d=e" ++ String "010"
     ("50 100" ++ String "010" ("100 150 c^d-e+f=g" ++ String "010" "")))%string.

End Stub.

(** * Properties *)

(** ** Bit depth and gain *)

Section BitDepth.

Local Open Scope Qc_scope.

Lemma max_nonempty (a : ndarray) : a <> [] -> exists m, Np.max a = Ok m.
Proof. destruct a as [|x rest]; [congruence | intros _; simpl; eauto]. Qed.

Lemma abs_nonempty (a : ndarray) : a <> [] -> Np.abs a <> [].
Proof. destruct a; simpl; congruence. Qed.

Lemma div_scalar_nonempty (a : ndarray) (d : float64) :
  a <> [] -> Np.div_scalar a d <> [].
Proof. destruct a; simpl; congruence. Qed.

(** The three answers of [estimate_bit_depth], by the maximum. *)
Lemma estimate_bit_depth_by_max (wav : ndarray) :
  estimate_bit_depth wav =
    match Np.max (Np.abs wav) with
    | Raise e => Raise e
    | Ok max_gain =>
        Ok (if Np.gt max_gain (Np.of_Z 8388608) then "int32"%string
            else if Np.gt max_gain (Np.of_Z 8) then "int16"%string
            else "float"%string)
    end.
Proof.
  unfold estimate_bit_depth.
  destruct (Np.max (Np.abs wav)) as [g|e]; [|reflexivity].
  destruct (Np.gt g (Np.of_Z 8388608)); [reflexivity|].
  destruct (Np.gt g (Np.of_Z 8)); reflexivity.
Qed.

Lemma gt_finite (q : Qc) (n : Z) :
  Np.gt (Np.Fin q) (Np.of_Z n) = true <-> Qc_of_Z n < q.
Proof. unfold Np.gt, Np.of_Z, Np.lt, Np.Qc_ltb. apply bool_decide_eq_true. Qed.

Lemma scale_by_bit_depth_unknown (depth : string) (wav : ndarray) :
  depth <> "int16"%string -> depth <> "int32"%string -> depth <> "float"%string ->
  scale_by_bit_depth depth wav = Raise "ValueError".
Proof.
  intros H16 H32 Hf. unfold scale_by_bit_depth.
  destruct (String.eqb_spec depth "int16"); [contradiction|].
  destruct (String.eqb_spec depth "int32"); [contradiction|].
  destruct (String.eqb_spec depth "float"); [contradiction|reflexivity].
Qed.

(** The step of lines 89 to 102 on every array. *)
Lemma bit_depth_step_by_max (wav : ndarray) :
  bit_depth_step wav =
    match Np.max (Np.abs wav) with
    | Raise e => Raise e
    | Ok max_gain =>
        Ok (if Np.gt max_gain (Np.of_Z 8388608)
            then Np.div_scalar wav (Np.of_Z 2147483647)
            else if Np.gt max_gain (Np.of_Z 8)
                 then Np.div_scalar wav (Np.of_Z 32767)
                 else wav)
    end.
Proof.
  unfold bit_depth_step. rewrite estimate_bit_depth_by_max.
  destruct (Np.max (Np.abs wav)) as [g|e]; [|reflexivity].
  destruct (Np.gt g (Np.of_Z 8388608)); [reflexivity|].
  destruct (Np.gt g (Np.of_Z 8)); reflexivity.
Qed.

Lemma bit_depth_step_nonempty (wav wav' : ndarray) :
  bit_depth_step wav = Ok wav' -> wav' <> [].
Proof.
  rewrite bit_depth_step_by_max.
  destruct (Np.max (Np.abs wav)) as [g|e] eqn:Hmax; [|discriminate].
  assert (wav <> []) as Hne.
  { intros ->. discriminate. }
  intros [= <-].
  repeat case_match; auto using div_scalar_nonempty.
Qed.

(** *** The maximum of absolute values *)

Lemma maximum_fin (x y : float64) (q : Qc) :
  x <> Np.Inf true -> y <> Np.Inf true ->
  Np.maximum x y = Np.Fin q ->
  exists a b, x = Np.Fin a /\ y = Np.Fin b /\ a <= q /\ b <= q /\ (a = q \/ b = q).
Proof.
  intros Hx Hy. unfold Np.maximum.
  destruct x as [a|[]|], y as [b|[]|]; simpl; try congruence.
  unfold Np.Qc_ltb. case_bool_decide as Hlt; intros [= <-]; exists a, b.
  - repeat split; auto using Qclt_le_weak, Qcle_refl.
  - apply Qcnot_lt_le in Hlt. repeat split; auto using Qcle_refl.
Qed.

Lemma maximum_not_neg_inf (x y : float64) :
  x <> Np.Inf true -> y <> Np.Inf true -> Np.maximum x y <> Np.Inf true.
Proof.
  unfold Np.maximum.
  destruct x as [a|[]|], y as [b|[]|]; simpl; try congruence.
  case_match; congruence.
Qed.

Lemma fabs_not_neg_inf (x : float64) : Np.fabs x <> Np.Inf true.
Proof. destruct x; simpl; congruence. Qed.

Lemma fabs_fin (x : float64) (b : Qc) :
  Np.fabs x = Np.Fin b -> exists a, x = Np.Fin a /\ b = Qcabs a.
Proof. destruct x as [a|n|]; simpl; intros [= <-]. eauto. Qed.

(** A finite running maximum bounds everything it has seen and is
    attained. *)
Lemma foldl_maximum_fin (rest : ndarray) (acc : float64) (q : Qc) :
  acc <> Np.Inf true ->
  foldl Np.maximum acc (Np.abs rest) = Np.Fin q ->
  exists a0, acc = Np.Fin a0 /\ a0 <= q
    /\ Forall (fun x => exists a, x = Np.Fin a /\ Qcabs a <= q) rest
    /\ (a0 = q \/ Exists (fun x => exists a, x = Np.Fin a /\ Qcabs a = q) rest).
Proof.
  revert acc. induction rest as [|x rest IH]; intros acc Hacc; simpl.
  - intros ->. exists q. repeat split; auto using Qcle_refl.
  - intros Hfold.
    destruct (IH _ (maximum_not_neg_inf _ _ Hacc (fabs_not_neg_inf x)) Hfold)
      as (a1 & Hmax & Hle & Hall & Hatt).
    destruct (maximum_fin _ _ _ Hacc (fabs_not_neg_inf x) Hmax)
      as (a0 & b & -> & Hb & Ha0 & Hble & Hwhich).
    destruct (fabs_fin _ _ Hb) as (a & -> & ->).
    exists a0. repeat split.
    + eauto using Qcle_trans.
    + constructor; [|assumption]. exists a. eauto using Qcle_trans.
    + destruct Hatt as [<-|Hex]; [|right; by apply Exists_cons_tl].
      destruct Hwhich as [->|Heq]; [by left|].
      right. apply Exists_cons_hd. eauto.
Qed.

Lemma max_abs_fin (a : ndarray) (q : Qc) :
  Np.max (Np.abs a) = Ok (Np.Fin q) ->
  Forall (fun x => exists v, x = Np.Fin v /\ Qcabs v <= q) a
  /\ Exists (fun x => exists v, x = Np.Fin v /\ Qcabs v = q) a.
Proof.
  destruct a as [|x rest]; simpl; [discriminate|].
  intros [= Hfold].
  destruct (foldl_maximum_fin _ _ _ (fabs_not_neg_inf x) Hfold)
    as (a0 & Hx & Hle & Hall & Hatt).
  destruct (fabs_fin _ _ Hx) as (v & -> & ->).
  split.
  - constructor; eauto.
  - destruct Hatt as [Heq|Hex]; [apply Exists_cons_hd; eauto|by apply Exists_cons_tl].
Qed.

(** Values at most one, one of them one: the maximum is one. *)
Lemma foldl_maximum_one (rest : ndarray) (a0 : Qc) :
  a0 <= 1 ->
  Forall (fun x => exists a, x = Np.Fin a /\ a <= 1) rest ->
  a0 = 1 \/ Exists (fun x => x = Np.Fin 1) rest ->
  foldl Np.maximum (Np.Fin a0) rest = Np.Fin 1.
Proof.
  revert a0. induction rest as [|x rest IH]; intros a0 Ha0 Hall Hatt; simpl.
  - destruct Hatt as [->|Hex]; [reflexivity|]. by apply Exists_nil in Hex.
  - apply Forall_cons in Hall as [(a & -> & Ha) Hall].
    unfold Np.maximum; simpl. unfold Np.Qc_ltb.
    case_bool_decide as Hlt.
    + apply IH; [assumption..|].
      destruct Hatt as [->|Hex].
      * left. apply Qcle_antisym; auto using Qclt_le_weak.
      * apply Exists_cons in Hex as [[= ->]|Hex]; auto.
    + apply Qcnot_lt_le in Hlt. apply IH; [assumption..|].
      destruct Hatt as [->|Hex]; [by left|].
      apply Exists_cons in Hex as [[= ->]|Hex]; [|auto].
      left. by apply Qcle_antisym.
Qed.

Lemma Qcabs_div_le_1 (a q : Qc) : 0 < q -> Qcabs a <= q -> Qcabs (a / q) <= 1.
Proof.
  intros Hq Ha. apply (Qcmult_lt_0_le_reg_r _ _ q Hq).
  rewrite Qcmult_1_l.
  rewrite <- (Qcabs_pos q) at 2 by auto using Qclt_le_weak.
  rewrite <- Qcabs_Qcmult, (Qcmult_comm (a / q)), Qcmult_div_r; [assumption|].
  intros ->. by apply Qclt_not_eq in Hq.
Qed.

Lemma Qcabs_div_eq_1 (a q : Qc) : 0 < q -> Qcabs a = q -> Qcabs (a / q) = 1.
Proof.
  intros Hq Ha.
  assert (q <> 0) as Hne by (intros ->; by apply Qclt_not_eq in Hq).
  assert (Qcabs (a / q) * q = 1 * q) as Heq.
  { rewrite Qcmult_1_l.
    rewrite <- (Qcabs_pos q) at 2 by auto using Qclt_le_weak.
    by rewrite <- Qcabs_Qcmult, (Qcmult_comm (a / q)), Qcmult_div_r. }
  apply Qcle_antisym; apply (Qcmult_lt_0_le_reg_r _ _ q Hq); rewrite Heq;
    apply Qcle_refl.
Qed.

Lemma true_divide_fin (a q : Qc) :
  q <> 0 -> Np.true_divide (Np.Fin a) (Np.Fin q) = Np.Fin (a / q).
Proof.
  intros Hq. unfold Np.true_divide, Np.Qc_is_zero.
  rewrite Z2Qc_inj_0. by rewrite bool_decide_eq_false_2.
Qed.

Lemma true_divide_zero_zero :
  Np.true_divide (Np.Fin 0) (Np.Fin 0) = Np.NaN.
Proof.
  unfold Np.true_divide, Np.Qc_is_zero.
  rewrite Z2Qc_inj_0. by rewrite bool_decide_eq_true_2.
Qed.

Lemma abs_div_bounded (l : ndarray) (q : Qc) :
  0 < q ->
  Forall (fun x => exists v, x = Np.Fin v /\ Qcabs v <= q) l ->
  Forall (fun y => exists a, y = Np.Fin a /\ a <= 1)
    (Np.abs (Np.div_scalar l (Np.Fin q))).
Proof.
  intros Hq Hall. unfold Np.abs, Np.div_scalar.
  rewrite !List.Forall_map. eapply Forall_impl; [exact Hall|].
  intros x (v & -> & Hv).
  assert (q <> 0) as Hne by (intros ->; by apply Qclt_not_eq in Hq).
  rewrite true_divide_fin by assumption. simpl.
  eauto using Qcabs_div_le_1.
Qed.

Lemma abs_div_attained (l : ndarray) (q : Qc) :
  0 < q ->
  Exists (fun x => exists v, x = Np.Fin v /\ Qcabs v = q) l ->
  Exists (fun y => y = Np.Fin 1) (Np.abs (Np.div_scalar l (Np.Fin q))).
Proof.
  intros Hq Hex. unfold Np.abs, Np.div_scalar.
  rewrite !List.Exists_map. eapply Exists_impl; [exact Hex|].
  intros x (v & -> & Hv).
  assert (q <> 0) as Hne by (intros ->; by apply Qclt_not_eq in Hq).
  rewrite true_divide_fin by assumption. simpl.
  f_equal. by apply Qcabs_div_eq_1.
Qed.

(** After the division by a finite maximum that is not zero, the maximum
    is one. *)
Lemma max_abs_after_division (l : ndarray) (q : Qc) :
  Np.max (Np.abs l) = Ok (Np.Fin q) -> q <> 0 ->
  Np.max (Np.abs (Np.div_scalar l (Np.Fin q))) = Ok (Np.Fin 1).
Proof.
  intros Hmax Hne.
  destruct (max_abs_fin _ _ Hmax) as [Hall Hex].
  assert (0 < q) as Hq.
  { apply Exists_exists in Hex as (x & _ & v & _ & <-).
    destruct (Qcle_lt_or_eq _ _ (Qcabs_nonneg v)) as [|Heq]; [assumption|].
    by destruct Hne. }
  pose proof (abs_div_bounded _ _ Hq Hall) as Hb.
  pose proof (abs_div_attained _ _ Hq Hex) as Ha.
  destruct (Np.abs (Np.div_scalar l (Np.Fin q))) as [|y rest]; simpl.
  - by apply Exists_nil in Ha.
  - apply Forall_cons in Hb as [(a & -> & Hle) Hb].
    f_equal. apply foldl_maximum_one; [assumption..|].
    apply Exists_cons in Ha as [[= ->]|Ha]; auto.
Qed.

(** A maximum of zero: all samples are zero, and the division makes each
    of them NaN. *)
Lemma division_by_zero_maximum (l : ndarray) :
  Np.max (Np.abs l) = Ok (Np.Fin 0) ->
  l = map (fun _ => Np.Fin 0) l
  /\ Np.div_scalar l (Np.Fin 0) = map (fun _ => Np.NaN) l.
Proof.
  intros Hmax. destruct (max_abs_fin _ _ Hmax) as [Hall _].
  clear Hmax. induction Hall as [|x l (v & -> & Hv) _ [IH1 IH2]]; [done|].
  assert (v = 0) as ->.
  { apply Qcabs_null, Qcle_antisym; [assumption|apply Qcabs_nonneg]. }
  unfold Np.div_scalar in *. cbn [map].
  rewrite true_divide_zero_zero. split; congruence.
Qed.

End BitDepth.

(** C1: the bit-depth step is the piecewise function of
    [max_gain = max(abs(wav))]: above 8388608 every sample is divided by
    2147483647, otherwise above 8 by 32767, otherwise the samples are left
    as they are; both comparisons are strict.  (On an array without
    elements the maximum does not exist and the step raises with it.) *)
Theorem bit_depth_step_piecewise (wav : ndarray) :
  bit_depth_step wav =
    match Np.max (Np.abs wav) with
    | Raise e => Raise e
    | Ok max_gain =>
        Ok (if Np.gt max_gain (Np.of_Z 8388608)
            then Np.div_scalar wav (Np.of_Z 2147483647)
            else if Np.gt max_gain (Np.of_Z 8)
                 then Np.div_scalar wav (Np.of_Z 32767)
                 else wav)
    end
  /\ forall q : Qc,
      Np.max (Np.abs wav) = Ok (Np.Fin q) ->
      ((Qc_of_Z 8388608 < q)%Qc ->
         bit_depth_step wav = Ok (Np.div_scalar wav (Np.of_Z 2147483647)))
      /\ ((Qc_of_Z 8 < q)%Qc -> (q <= Qc_of_Z 8388608)%Qc ->
            bit_depth_step wav = Ok (Np.div_scalar wav (Np.of_Z 32767)))
      /\ ((q <= Qc_of_Z 8)%Qc -> bit_depth_step wav = Ok wav).
Proof.
  split; [apply bit_depth_step_by_max|].
  intros q Hmax. rewrite bit_depth_step_by_max, Hmax.
  repeat split.
  - intros Hgt. by rewrite (proj2 (gt_finite q 8388608) Hgt).
  - intros Hgt Hle.
    destruct (Np.gt (Np.Fin q) (Np.of_Z 8388608)) eqn:Hbig.
    + apply gt_finite in Hbig. by apply Qcle_not_lt in Hle.
    + by rewrite (proj2 (gt_finite q 8) Hgt).
  - intros Hle.
    destruct (Np.gt (Np.Fin q) (Np.of_Z 8388608)) eqn:Hbig.
    + apply gt_finite in Hbig. exfalso.
      apply (Qcle_not_lt _ _ Hle). eapply Qclt_trans; [|exact Hbig].
      by apply Z2Qc_inj_lt.
    + destruct (Np.gt (Np.Fin q) (Np.of_Z 8)) eqn:Hsmall; [|reflexivity].
      apply gt_finite in Hsmall. by apply Qcle_not_lt in Hle.
Qed.

(** The thresholds themselves fall on the lower side, NaN takes the last
    branch, and an array without elements raises. *)
Example bit_depth_step_boundaries :
  bit_depth_step [Np.of_Z 8] = Ok [Np.of_Z 8]
  /\ bit_depth_step [Np.of_Z (-9)] = Ok (Np.div_scalar [Np.of_Z (-9)] (Np.of_Z 32767))
  /\ bit_depth_step [Np.of_Z 8388609]
     = Ok (Np.div_scalar [Np.of_Z 8388609] (Np.of_Z 2147483647))
  /\ bit_depth_step [Np.Inf true]
     = Ok (Np.div_scalar [Np.Inf true] (Np.of_Z 2147483647))
  /\ bit_depth_step [Np.of_Z 3; Np.NaN] = Ok [Np.of_Z 3; Np.NaN]
  /\ bit_depth_step [] = Raise "ValueError".
Proof. repeat split; vm_compute; reflexivity. Qed.

(** A maximum of exactly 8388608 is scaled by 32767. *)
Lemma bit_depth_step_piecewise_witness :
  bit_depth_step [Np.of_Z 8388608; Np.of_Z (-3)]
  = Ok (Np.div_scalar [Np.of_Z 8388608; Np.of_Z (-3)] (Np.of_Z 32767)).
Proof.
  refine (proj1 (proj2 (proj2 (bit_depth_step_piecewise
            [Np.of_Z 8388608; Np.of_Z (-3)]) (Qc_of_Z 8388608) _)) _ _).
  - vm_compute. apply (f_equal Ok), (f_equal Np.Fin), Qc_is_canon. reflexivity.
  - apply (proj1 (Z2Qc_inj_lt 8 8388608)). reflexivity.
  - apply Qcle_refl.
Defined.

(** C8 (amended): on every array with at least one element
    [estimate_bit_depth] returns one of ['int32'], ['int16'], ['float'], so
    [generate_wav_file] does not reach its error branch; a depth outside
    these three would raise [ValueError] there.  On an array without
    elements [np.max] raises instead. *)
Theorem estimate_bit_depth_recognized (wav : ndarray) :
  wav <> [] ->
  (exists depth : string,
      estimate_bit_depth wav = Ok depth
      /\ (depth = "int32" \/ depth = "int16" \/ depth = "float")%string
      /\ exists wav', scale_by_bit_depth depth wav = Ok wav'
                      /\ bit_depth_step wav = Ok wav')
  /\ (forall other : string,
        other <> "int16"%string -> other <> "int32"%string ->
        other <> "float"%string ->
        scale_by_bit_depth other wav = Raise "ValueError").
Proof.
  intros Hne. split; [|intros; by apply scale_by_bit_depth_unknown].
  unfold bit_depth_step. rewrite estimate_bit_depth_by_max.
  destruct (max_nonempty _ (abs_nonempty _ Hne)) as [g ->].
  destruct (Np.gt g (Np.of_Z 8388608)); [|destruct (Np.gt g (Np.of_Z 8))];
    eexists; (split; [reflexivity|]); (split; [tauto|]);
    eexists; split; reflexivity.
Qed.

Lemma estimate_bit_depth_recognized_witness :
  exists depth : string,
    estimate_bit_depth [Np.NaN; Np.of_Z 40000] = Ok depth
    /\ (depth = "int32" \/ depth = "int16" \/ depth = "float")%string
    /\ exists wav', scale_by_bit_depth depth [Np.NaN; Np.of_Z 40000] = Ok wav'
                    /\ bit_depth_step [Np.NaN; Np.of_Z 40000] = Ok wav'.
Proof.
  apply (estimate_bit_depth_recognized [Np.NaN; Np.of_Z 40000]). discriminate.
Defined.

(** C8 as stated fails on the array without elements. *)
Lemma estimate_bit_depth_empty_raises :
  estimate_bit_depth [] = Raise "ValueError"
  /\ ~ exists depth : string, estimate_bit_depth [] = Ok depth.
Proof. split; [reflexivity|]. intros [depth H]. discriminate. Qed.

(** C2 (amended): with [gain_normalize] every sample is divided by the
    maximum absolute value of the corrected samples, without a test for
    zero.  When that maximum is finite and not zero, the maximum absolute
    value afterwards is exactly one.  When it is zero, all samples are zero
    and each becomes NaN. *)
Theorem gain_normalize_divides_by_maximum (wav wav' : ndarray) :
  bit_depth_step wav = Ok wav' ->
  exists m : float64,
    Np.max (Np.abs wav') = Ok m
    /\ normalize_wav true wav = Ok (Np.div_scalar wav' m)
    /\ (forall q : Qc, m = Np.Fin q -> q <> Qc_of_Z 0 ->
          Np.max (Np.abs (Np.div_scalar wav' m)) = Ok (Np.of_Z 1))
    /\ (m = Np.of_Z 0 ->
          wav' = map (fun _ => Np.of_Z 0) wav'
          /\ normalize_wav true wav = Ok (map (fun _ => Np.NaN) wav')).
Proof.
  intros Hstep.
  destruct (max_nonempty _ (abs_nonempty _ (bit_depth_step_nonempty _ _ Hstep)))
    as [m Hmax].
  assert (normalize_wav true wav = Ok (Np.div_scalar wav' m)) as Hnorm.
  { unfold normalize_wav, gain_step. by rewrite Hstep, Hmax. }
  exists m. split; [assumption|]. split; [assumption|]. split.
  - intros q -> Hq. unfold Np.of_Z. rewrite Z2Qc_inj_1.
    rewrite Z2Qc_inj_0 in Hq. by apply max_abs_after_division.
  - unfold Np.of_Z. rewrite Z2Qc_inj_0. intros ->.
    destruct (division_by_zero_maximum _ Hmax) as [Hz Hnan].
    split; [assumption|]. by rewrite Hnorm, Hnan.
Qed.

Lemma gain_normalize_divides_by_maximum_witness :
  exists m : float64,
    Np.max (Np.abs [Np.of_Z 3; Np.of_Z (-4)]) = Ok m
    /\ normalize_wav true [Np.of_Z 3; Np.of_Z (-4)]
       = Ok (Np.div_scalar [Np.of_Z 3; Np.of_Z (-4)] m)
    /\ (forall q : Qc, m = Np.Fin q -> q <> Qc_of_Z 0 ->
          Np.max (Np.abs (Np.div_scalar [Np.of_Z 3; Np.of_Z (-4)] m))
          = Ok (Np.of_Z 1))
    /\ (m = Np.of_Z 0 ->
          [Np.of_Z 3; Np.of_Z (-4)] = map (fun _ => Np.of_Z 0) [Np.of_Z 3; Np.of_Z (-4)]
          /\ normalize_wav true [Np.of_Z 3; Np.of_Z (-4)]
             = Ok (map (fun _ => Np.NaN) [Np.of_Z 3; Np.of_Z (-4)])).
Proof.
  apply (gain_normalize_divides_by_maximum [Np.of_Z 3; Np.of_Z (-4)]).
  reflexivity.
Defined.

(** C2 as stated fails on silence: the division is not skipped, and the
    samples do not stay zero. *)
Lemma gain_normalize_silence_is_nan :
  normalize_wav true [Np.of_Z 0; Np.of_Z 0] = Ok [Np.NaN; Np.NaN]
  /\ normalize_wav true [Np.of_Z 0; Np.of_Z 0] <> Ok [Np.of_Z 0; Np.of_Z 0].
Proof. split; [reflexivity|]. vm_compute. discriminate. Qed.

(** ** Question sets and the stages of [synthesis] *)

Lemma arange_three (n : Z) : Np.arange n (n + 3) = [n; n + 1; n + 2].
Proof.
  unfold Np.arange. replace (n + 3 - n) with 3 by lia.
  simpl. by rewrite Z.add_0_r.
Qed.

Lemma set_each_question_path_flags (cfg : config) :
  ground_truth_duration (set_each_question_path cfg) = ground_truth_duration cfg
  /\ global_question_path (set_each_question_path cfg) = global_question_path cfg.
Proof.
  unfold set_each_question_path. simpl. repeat case_match; simpl; auto.
Qed.

(** Each stage ends up with its own path, or else with the global one. *)
Lemma set_each_question_path_stage (cfg : config) (typ : stage) :
  question_path (get_stage (set_each_question_path cfg) typ) =
    match question_path (get_stage cfg typ) with
    | Some p => Some p
    | None => global_question_path cfg
    end.
Proof.
  unfold set_each_question_path.
  destruct cfg as [md [c1 q1 a1 s1 p1 r1] [c2 q2 a2 s2 p2 r2] [c3 q3 a3 s3 p3 r3]
                     g gt gn lf sr fp lp op].
  destruct typ, q1, q2, q3; reflexivity.
Qed.

Lemma set_each_question_path_eq (cfg : config) :
  set_each_question_path cfg =
    Config (model_dir cfg)
      (set_question_path (cfg_timelag cfg)
         (question_path (get_stage (set_each_question_path cfg) timelag)))
      (set_question_path (cfg_duration cfg)
         (question_path (get_stage (set_each_question_path cfg) duration)))
      (set_question_path (cfg_acoustic cfg)
         (question_path (get_stage (set_each_question_path cfg) acoustic)))
      (global_question_path cfg) (ground_truth_duration cfg) (gain_normalize cfg)
      (log_f0_conditioning cfg) (sample_rate cfg) (frame_period cfg)
      (cfg_label_path cfg) (cfg_out_wav_path cfg).
Proof.
  destruct cfg as [md [c1 q1 a1 s1 p1 r1] [c2 q2 a2 s2 p2 r2] [c3 q3 a3 s3 p3 r3]
                     g gt gn lf sr fp lp op].
  destruct q1, q2, q3; reflexivity.
Qed.

Section Stages.

Context {C : Collaborators}.

Lemma load_qst_run (question_path : option string) (append_hat_for_LL : bool)
    (w : world) :
  load_qst question_path append_hat_for_LL w =
    match hts_load_question_set question_path append_hat_for_LL with
    | Ok (binary_dict, continuous_dict) =>
        (Ok (binary_dict, continuous_dict,
             [dict_len binary_dict; dict_len binary_dict + 1; dict_len binary_dict + 2],
             dict_len binary_dict + 1),
         log (Called "hts.load_question_set") w)
    | Raise e => (Raise e, log (Called "hts.load_question_set") w)
    end.
Proof.
  unfold load_qst, bind, call, ret.
  destruct (hts_load_question_set question_path append_hat_for_LL) as [[b c]|e];
    [|reflexivity].
  by rewrite arange_three.
Qed.

(** C6 (amended): [load_qst] returns as [pitch_indices] the three indices
    [len(binary_dict)], [len(binary_dict)+1], [len(binary_dict)+2], and as
    [pitch_idx] the second of them, [len(binary_dict)+1]. *)
Theorem load_qst_pitch_indices (question_path : option string)
    (append_hat_for_LL : bool) (binary_dict continuous_dict : question_dict)
    (w : world) :
  hts_load_question_set question_path append_hat_for_LL
    = Ok (binary_dict, continuous_dict) ->
  exists (pitch_indices : list Z) (pitch_idx : Z),
    fst (load_qst question_path append_hat_for_LL w)
      = Ok (binary_dict, continuous_dict, pitch_indices, pitch_idx)
    /\ pitch_indices
       = [dict_len binary_dict; dict_len binary_dict + 1; dict_len binary_dict + 2]
    /\ pitch_idx = dict_len binary_dict + 1
    /\ pitch_indices !! 1%nat = Some pitch_idx
    /\ pitch_indices !! 0%nat <> Some pitch_idx.
Proof.
  intros Hload. rewrite load_qst_run, Hload. simpl.
  eexists _, _. repeat split. intros [= Heq]. lia.
Qed.

(** With the alignment given, lines 150 to 184 hand the labels on and do
    nothing else. *)
Lemma resolve_timing_ground_truth (cfg : config) (device : string) (labels : Labels)
    (timelag_model : Model) (timelag_config : ModelConfig)
    (timelag_in_scaler timelag_out_scaler : Scaler)
    (duration_model : Model) (duration_config : ModelConfig)
    (duration_in_scaler duration_out_scaler : Scaler) (w : world) :
  ground_truth_duration cfg = true ->
  resolve_timing cfg device labels
    timelag_model timelag_config timelag_in_scaler timelag_out_scaler
    duration_model duration_config duration_in_scaler duration_out_scaler w
  = (Ok labels, w).
Proof. intros Hgt. unfold resolve_timing. by rewrite Hgt. Qed.

End Stages.

Lemma trace_log (ev : event) (w : world) : trace (log ev w) = trace w ++ [ev].
Proof. reflexivity. Qed.

Ltac not_in_trace :=
  let H := fresh in
  intros H;
  repeat (apply elem_of_cons in H as [H|H]; [discriminate H|]);
  by apply elem_of_nil in H.

Ltac trace_extended :=
  simpl; rewrite ?trace_log, <- ?app_assoc; simpl; reflexivity.

Section Synthesis.

Context {C : Collaborators}.

Variables (cfg : config) (device label_path : string).
Variables (timelag_model : Model) (timelag_config : ModelConfig).
Variables (timelag_in_scaler timelag_out_scaler : Scaler).
Variables (duration_model : Model) (duration_config : ModelConfig).
Variables (duration_in_scaler duration_out_scaler : Scaler).
Variables (acoustic_model : Model) (acoustic_config : ModelConfig).
Variables (acoustic_in_scaler acoustic_out_scaler : Scaler).

Local Abbreviation run_synthesis :=
  (synthesis cfg device label_path
     timelag_model timelag_config timelag_in_scaler timelag_out_scaler
     duration_model duration_config duration_in_scaler duration_out_scaler
     acoustic_model acoustic_config acoustic_in_scaler acoustic_out_scaler).

(** C3: with [ground_truth_duration] the timing step returns the loaded
    timeline as it is, and a run of [synthesis] calls neither the time-lag
    nor the duration predictor; the timeline it returns is the loaded one. *)
Theorem ground_truth_duration_passthrough (w : world) :
  ground_truth_duration cfg = true ->
  (forall (labels : Labels) (w0 : world),
      resolve_timing (set_each_question_path cfg) device labels
        timelag_model timelag_config timelag_in_scaler timelag_out_scaler
        duration_model duration_config duration_in_scaler duration_out_scaler w0
      = (Ok labels, w0))
  /\ exists evs : list event,
      trace (snd (run_synthesis w)) = trace w ++ evs
      /\ evs `prefix_of` [Called "hts.load"; Called "hts.load_question_set";
                          Called "predict_acoustic"; Called "gen_waveform"]
      /\ (Called "predict_timelag" ∉ evs)
      /\ (Called "predict_duration" ∉ evs)
      /\ forall (duration_modified_labels : Labels) (f0 mgc bap wav : ndarray),
          fst (run_synthesis w) = Ok (duration_modified_labels, f0, mgc, bap, wav) ->
          hts_load label_path = Ok duration_modified_labels.
Proof.
  intros Hgt.
  assert (ground_truth_duration (set_each_question_path cfg) = true) as Hgt'.
  { by rewrite (proj1 (set_each_question_path_flags cfg)). }
  split; [intros; by apply resolve_timing_ground_truth|].
  unfold synthesis, bind, call.
  destruct (hts_load label_path) as [labels|e].
  2:{ exists [Called "hts.load"]. repeat split;
        [by eexists | not_in_trace | not_in_trace | discriminate]. }
  rewrite resolve_timing_ground_truth by assumption.
  rewrite load_qst_run.
  destruct (hts_load_question_set _ _) as [[b c]|e].
  2:{ exists [Called "hts.load"; Called "hts.load_question_set"].
      repeat split;
        [trace_extended | by eexists | not_in_trace | not_in_trace | discriminate]. }
  destruct (predict_acoustic _ _ _ _ _ _ _ _ _ _ _) as [features|e].
  2:{ exists [Called "hts.load"; Called "hts.load_question_set";
              Called "predict_acoustic"].
      repeat split;
        [trace_extended | by eexists | not_in_trace | not_in_trace | discriminate]. }
  destruct (gen_waveform _ _ _ _ _ _ _ _ _ _ _ _ _ _) as [[[[f0 mgc] bap] wav]|e].
  2:{ exists [Called "hts.load"; Called "hts.load_question_set";
              Called "predict_acoustic"; Called "gen_waveform"].
      repeat split;
        [trace_extended | by eexists | not_in_trace | not_in_trace | discriminate]. }
  exists [Called "hts.load"; Called "hts.load_question_set";
          Called "predict_acoustic"; Called "gen_waveform"].
  repeat split; [trace_extended | by eexists | not_in_trace | not_in_trace |].
  simpl. by intros ? ? ? ? ? [= -> _ _ _ _].
Qed.

(** C4 (amended): without [ground_truth_duration] and without a question
    set for the time-lag or the duration stage (neither its own nor the
    global one), [synthesis] hands [None] to the question-set loader of that
    stage; when the loader raises, the run ends there with the loader's own
    exception.  The module has no check and no error class of its own. *)
Theorem unresolved_question_path_propagates (w : world) (labels : Labels) (e : exn) :
  ground_truth_duration cfg = false ->
  global_question_path cfg = None ->
  hts_load label_path = Ok labels ->
  hts_load_question_set None false = Raise e ->
  (question_path (cfg_timelag cfg) = None ->
     run_synthesis w
     = (Raise e, log (Called "hts.load_question_set") (log (Called "hts.load") w)))
  /\ (question_path (cfg_duration cfg) = None ->
      forall (p : string) (b c : question_dict) (lag : Lag),
        question_path (cfg_timelag cfg) = Some p ->
        hts_load_question_set (Some p) false = Ok (b, c) ->
        predict_timelag device labels timelag_model timelag_config
          timelag_in_scaler timelag_out_scaler b c
          [dict_len b; dict_len b + 1; dict_len b + 2]
          (log_f0_conditioning cfg) (allowed_range (cfg_timelag cfg)) = Ok lag ->
        run_synthesis w
        = (Raise e,
           log (Called "hts.load_question_set")
             (log (Called "predict_timelag")
                (log (Called "hts.load_question_set") (log (Called "hts.load") w))))).
Proof.
  intros Hgt Hglobal Hlabels Hnone.
  assert (ground_truth_duration (set_each_question_path cfg) = false) as Hgt'.
  { by rewrite (proj1 (set_each_question_path_flags cfg)). }
  split.
  - intros Htl. unfold synthesis, bind, call. rewrite Hlabels.
    unfold resolve_timing. rewrite Hgt'. unfold bind.
    rewrite load_qst_run.
    change (cfg_timelag (set_each_question_path cfg))
      with (get_stage (set_each_question_path cfg) timelag).
    rewrite set_each_question_path_stage. simpl.
    by rewrite Htl, Hglobal, Hnone.
  - intros Hdur p b c lag Htl Hq Hlag.
    unfold synthesis, bind, call. rewrite Hlabels.
    unfold resolve_timing. rewrite Hgt'. unfold bind, call.
    rewrite load_qst_run.
    change (cfg_timelag (set_each_question_path cfg))
      with (get_stage (set_each_question_path cfg) timelag).
    change (cfg_duration (set_each_question_path cfg))
      with (get_stage (set_each_question_path cfg) duration).
    rewrite !set_each_question_path_stage. simpl.
    rewrite Htl, Hq, Hdur, Hglobal.
    rewrite (set_each_question_path_eq cfg). simpl.
    rewrite Hlag. rewrite load_qst_run. by rewrite Hnone.
Qed.

End Synthesis.

Lemma unresolved_question_path_propagates_witness :
  @synthesis (Stub.collaborators Stub.two_lines 2 [Np.of_Z 16000])
    (Stub.cfg None None (Some "acoustic.hed"%string) None false false)
    "cpu" "in.lab" tt tt tt tt tt tt tt tt tt tt tt tt Stub.empty_world
  = (Raise "TypeError",
     log (Called "hts.load_question_set") (log (Called "hts.load") Stub.empty_world))
  /\ @synthesis (Stub.collaborators Stub.two_lines 2 [Np.of_Z 16000])
       (Stub.cfg (Some "timelag.hed"%string) None (Some "acoustic.hed"%string) None
          false false)
       "cpu" "in.lab" tt tt tt tt tt tt tt tt tt tt tt tt Stub.empty_world
     = (Raise "TypeError",
        log (Called "hts.load_question_set")
          (log (Called "predict_timelag")
             (log (Called "hts.load_question_set")
                (log (Called "hts.load") Stub.empty_world)))).
Proof.
  split.
  - refine (proj1 (@unresolved_question_path_propagates
              (Stub.collaborators Stub.two_lines 2 [Np.of_Z 16000])
              (Stub.cfg None None (Some "acoustic.hed"%string) None false false)
              "cpu" "in.lab" tt tt tt tt tt tt tt tt tt tt tt tt
              Stub.empty_world Stub.two_lines "TypeError" _ _ _ _) _);
      reflexivity.
  - refine (proj2 (@unresolved_question_path_propagates
              (Stub.collaborators Stub.two_lines 2 [Np.of_Z 16000])
              (Stub.cfg (Some "timelag.hed"%string) None (Some "acoustic.hed"%string)
                 None false false)
              "cpu" "in.lab" tt tt tt tt tt tt tt tt tt tt tt tt
              Stub.empty_world Stub.two_lines "TypeError" _ _ _ _) _
              "timelag.hed"%string (Stub.questions 2) (Stub.questions 1) tt _ _ _);
      reflexivity.
Defined.

(** C4 as stated fails: with a loader that raises [TypeError] on [None], as
    one that starts with [open(None)] does, the run ends with that
    [TypeError]. *)
Lemma unresolved_question_path_not_configuration_error :
  fst (@synthesis (Stub.collaborators Stub.two_lines 2 [Np.of_Z 16000])
         (Stub.cfg None None (Some "acoustic.hed"%string) None false false)
         "cpu" "in.lab" tt tt tt tt tt tt tt tt tt tt tt tt Stub.empty_world)
  = Raise "TypeError"
  /\ fst (@synthesis (Stub.collaborators Stub.two_lines 2 [Np.of_Z 16000])
         (Stub.cfg None None (Some "acoustic.hed"%string) None false false)
         "cpu" "in.lab" tt tt tt tt tt tt tt tt tt tt tt tt Stub.empty_world)
     <> Raise "ConfigurationError".
Proof. split; [reflexivity|]. vm_compute. discriminate. Qed.

Lemma ground_truth_duration_passthrough_witness :
  exists evs : list event,
    trace (snd (@synthesis (Stub.collaborators Stub.two_lines 2 [Np.of_Z 16000])
                  (Stub.cfg None None None (Some "q.hed"%string) true false)
                  "cpu" "in.lab" tt tt tt tt tt tt tt tt tt tt tt tt Stub.empty_world))
    = trace Stub.empty_world ++ evs
    /\ (Called "predict_timelag" ∉ evs) /\ (Called "predict_duration" ∉ evs).
Proof.
  destruct (proj2 (@ground_truth_duration_passthrough
              (Stub.collaborators Stub.two_lines 2 [Np.of_Z 16000])
              (Stub.cfg None None None (Some "q.hed"%string) true false)
              "cpu" "in.lab" tt tt tt tt tt tt tt tt tt tt tt tt
              Stub.empty_world eq_refl))
    as (evs & Htrace & _ & Htl & Hdur & _).
  exists evs. auto.
Defined.

(** C6 as stated fails: with two binary questions the indices are 2, 3, 4
    and [pitch_idx] is 3, not the first of them. *)
Lemma load_qst_pitch_idx_is_not_first :
  fst (@load_qst (Stub.collaborators Stub.two_lines 2 [])
         (Some "q.hed"%string) false Stub.empty_world)
  = Ok (Stub.questions 2, Stub.questions 1, [2; 3; 4], 3)
  /\ match fst (@load_qst (Stub.collaborators Stub.two_lines 2 [])
                  (Some "q.hed"%string) false Stub.empty_world) with
     | Ok (_, _, pitch_indices, pitch_idx) => head pitch_indices <> Some pitch_idx
     | Raise _ => False
     end.
Proof. split; [reflexivity|]. vm_compute. discriminate. Qed.

Lemma load_qst_pitch_indices_witness :
  exists (pitch_indices : list Z) (pitch_idx : Z),
    fst (@load_qst (Stub.collaborators Stub.two_lines 2 [])
           (Some "q.hed"%string) false Stub.empty_world)
      = Ok (Stub.questions 2, Stub.questions 1, pitch_indices, pitch_idx)
    /\ pitch_indices !! 1%nat = Some pitch_idx.
Proof.
  destruct (@load_qst_pitch_indices (Stub.collaborators Stub.two_lines 2 [])
              (Some "q.hed"%string) false (Stub.questions 2) (Stub.questions 1)
              Stub.empty_world eq_refl)
    as (pitch_indices & pitch_idx & Hrun & _ & _ & Hsecond & _).
  exists pitch_indices, pitch_idx. auto.
Defined.

(** ** Strings *)

Section Strings.

Local Open Scope string_scope.
Local Arguments String.append !_ _ / : simpl nomatch.

Lemma append_empty_r (s : string) : s ++ "" = s.
Proof. induction s; simpl; congruence. Qed.

Lemma append_assoc (a b c : string) : (a ++ b) ++ c = a ++ b ++ c.
Proof. induction a; simpl; congruence. Qed.

Lemma length_append (a b : string) :
  String.length (a ++ b) = (String.length a + String.length b)%nat.
Proof. induction a; simpl; congruence. Qed.

Lemma len_append (a b : string) : Py.len (a ++ b) = (Py.len a + Py.len b)%Z.
Proof. unfold Py.len. rewrite length_append. lia. Qed.

Lemma len_nonneg (s : string) : (0 <= Py.len s)%Z.
Proof. unfold Py.len. lia. Qed.

Lemma snoc_append (cur : string) (c : ascii) (t : string) :
  Py.snoc cur c ++ t = cur ++ String c t.
Proof. unfold Py.snoc. by rewrite append_assoc. Qed.

Lemma prefix_empty (s : string) : String.prefix "" s = true.
Proof. by destruct s. Qed.

(** *** [split] *)

Lemma split_from_token (t cur rest : string) :
  no_space t = true ->
  Py.split_from cur (t ++ rest) = Py.split_from (cur ++ t) rest.
Proof.
  revert cur. induction t as [|c t IH]; intros cur Ht; simpl.
  - by rewrite append_empty_r.
  - simpl in Ht. apply andb_true_iff in Ht as [Hc Ht].
    apply negb_true_iff in Hc. rewrite Hc, IH by assumption.
    by rewrite snoc_append.
Qed.

Lemma split_from_space (cur rest : string) :
  Py.is_empty cur = false ->
  Py.split_from cur (String " " rest) = cur :: Py.split_from "" rest.
Proof. intros Hcur. simpl. by rewrite Hcur. Qed.

Lemma split_from_end (cur : string) :
  Py.is_empty cur = false -> Py.split_from cur "" = [cur].
Proof. intros Hcur. simpl. by rewrite Hcur. Qed.

Lemma split_last_token (t : string) :
  Py.is_empty t = false -> no_space t = true -> Py.split_from "" t = [t].
Proof.
  intros Hne Ht. rewrite <- (append_empty_r t) at 1.
  rewrite split_from_token by assumption. simpl.
  by apply split_from_end.
Qed.

Lemma is_token_parts (t : string) :
  is_token t = true -> Py.is_empty t = false /\ no_space t = true.
Proof.
  unfold is_token. intros [H1 H2]%andb_true_iff.
  by apply negb_true_iff in H1.
Qed.

(** Three tokens with one blank between them split into the three. *)
Lemma split_three (t1 t2 t3 : string) :
  is_token t1 = true -> is_token t2 = true -> is_token t3 = true ->
  Py.split (t1 ++ " " ++ t2 ++ " " ++ t3) = [t1; t2; t3].
Proof.
  intros [E1 S1]%is_token_parts [E2 S2]%is_token_parts [E3 S3]%is_token_parts.
  unfold Py.split. simpl.
  rewrite split_from_token, split_from_space by done. simpl.
  rewrite split_from_token, split_from_space by done. simpl.
  by rewrite split_last_token.
Qed.

(** *** [find] and slices *)

Lemma lacks_append (c : ascii) (a b : string) :
  lacks c (a ++ b) = lacks c a && lacks c b.
Proof. induction a as [|c' a IH]; simpl; [done|]. by rewrite IH, andb_assoc. Qed.

Lemma find_from_char (i : Z) (c : ascii) (l r : string) :
  lacks c l = true ->
  Py.find_from i (String c "") (l ++ String c r) = (i + Py.len l)%Z.
Proof.
  revert i. induction l as [|c' l IH]; intros i Hl.
  - simpl. unfold Py.startswith. simpl.
    destruct (ascii_dec c c); [|congruence].
    rewrite prefix_empty. unfold Py.len. simpl. lia.
  - simpl in Hl. apply andb_true_iff in Hl as [Hc Hl].
    apply negb_true_iff, Ascii.eqb_neq in Hc.
    simpl. unfold Py.startswith. simpl.
    destruct (ascii_dec c c'); [congruence|].
    rewrite IH by assumption. unfold Py.len. simpl. lia.
Qed.


Lemma clamp_in_range (n i : Z) : (0 <= i <= n)%Z -> Py.clamp n i = i.
Proof. intros Hi. unfold Py.clamp. destruct (Z.ltb_spec i 0); lia. Qed.



End Strings.


(** Other contexts, as the slice treats them: a [+] before the first [-]
    leaves nothing, and without [-] and [+] the last character is dropped. *)
Example timing_line_other_contexts :
  timing_line "0 50 a+b-c+d" = Ok ("0 50 " ++ String "010" "")%string
  /\ timing_line "0 50 pau" = Ok ("0 50 pa" ++ String "010" "")%string
  /\ timing_line "0 50" = Raise "ValueError"
  /\ timing_line "0 50 a-b+c d" = Raise "ValueError".
Proof. repeat split. Qed.


(** ** [replace] *)

Section Replace.

Local Open Scope string_scope.
Local Arguments String.append !_ _ / : simpl nomatch.

Lemma prefix_split (p s : string) :
  String.prefix p s = true -> exists rest, s = p ++ rest.
Proof.
  revert s. induction p as [|c p IH]; intros s H.
  - exists s. reflexivity.
  - destruct s as [|c' s]; simpl in H; [discriminate|].
    destruct (ascii_dec c c') as [->|]; [|discriminate].
    destruct (IH _ H) as [rest ->]. by exists rest.
Qed.

Lemma prefix_cons (a b : ascii) (p s : string) :
  String.prefix (String a p) (String b s) = Ascii.eqb a b && String.prefix p s.
Proof.
  simpl. destruct (ascii_dec a b) as [->|Hne].
  - by rewrite Ascii.eqb_refl.
  - apply Ascii.eqb_neq in Hne. by rewrite Hne.
Qed.

Lemma prefix_append (p rest : string) : String.prefix p (p ++ rest) = true.
Proof.
  induction p as [|c p IH]; simpl; [apply prefix_empty|].
  by destruct (ascii_dec c c).
Qed.

Lemma not_occurs_tail (sub : string) (c : ascii) (s : string) :
  ~ occurs_in sub (String c s) -> ~ occurs_in sub s.
Proof. intros Hno (a & b & ->). apply Hno. by exists (String c a), b. Qed.

Lemma replace_from_cons (c : ascii) (s old new : string) :
  Py.replace_from 0 old new (String c s) =
    if Py.startswith (String c s) old then
      new ++ (if Py.is_empty old then String c (Py.replace_from 0 old new s)
              else Py.replace_from (String.length old - 1) old new s)
    else String c (Py.replace_from 0 old new s).
Proof. reflexivity. Qed.

(** Without an occurrence [replace] changes nothing. *)
Lemma replace_no_occurrence (s old new : string) :
  Py.is_empty old = false -> ~ occurs_in old s -> Py.replace s old new = s.
Proof.
  intros Hold. unfold Py.replace.
  induction s as [|c s IH]; intros Hno; [simpl; by rewrite Hold|].
  rewrite replace_from_cons.
  destruct (Py.startswith (String c s) old) eqn:Hstart.
  - destruct (prefix_split _ _ Hstart) as [rest Hrest].
    destruct Hno. exists "", rest. by rewrite Hrest.
  - apply not_occurs_tail in Hno. by rewrite (IH Hno).
Qed.

Lemma replace_from_skip (x y old new : string) :
  Py.replace_from (String.length x) old new (x ++ y) = Py.replace_from 0 old new y.
Proof. induction x as [|c x IH]; simpl; [reflexivity|assumption]. Qed.

(** An occurrence at the very start is replaced, and the search goes on
    behind it. *)
Lemma replace_at_occurrence (c : ascii) (old' y new : string) :
  Py.replace (String c old' ++ y) (String c old') new
  = new ++ Py.replace y (String c old') new.
Proof.
  unfold Py.replace. cbn [String.append]. rewrite replace_from_cons.
  unfold Py.startswith.
  change (String c (old' ++ y)) with (String c old' ++ y) at 1.
  rewrite (prefix_append (String c old') y). cbn [Py.is_empty String.length].
  replace (S (String.length old') - 1)%nat with (String.length old') by lia.
  by rewrite replace_from_skip.
Qed.

Lemma replace_no_match_here (c : ascii) (s old new : string) :
  Py.startswith (String c s) old = false ->
  Py.replace (String c s) old new = String c (Py.replace s old new).
Proof. intros H. unfold Py.replace. by rewrite replace_from_cons, H. Qed.

(** [".wav"] does not overlap itself: an occurrence that starts inside [a]
    lies inside [a]. *)
Lemma wav_no_overlap (c : ascii) (a rest : string) :
  Py.startswith (String c a) ".wav" = false ->
  Py.startswith (String c a ++ ".wav" ++ rest) ".wav" = false.
Proof.
  unfold Py.startswith.
  destruct a as [|c2 [|c3 [|c4 a]]]; cbn [String.append];
    rewrite ?prefix_cons, ?prefix_empty; cbn [String.prefix]; intros H.
  all: repeat match goal with
       | |- context [Ascii.eqb ?x ?y] =>
           let Heq := fresh in
           destruct (Ascii.eqb_spec x y) as [Heq|Heq];
           [try discriminate Heq; try subst|];
           cbn [andb] in *; try reflexivity; try discriminate
       end.
Qed.

Lemma replace_wav_at_start (b new : string) :
  Py.replace (".wav" ++ b) ".wav" new = new ++ Py.replace b ".wav" new.
Proof. exact (replace_at_occurrence "." "wav" b new). Qed.

Lemma replace_wav_bounded (n : nat) (a b new : string) :
  (String.length a <= n)%nat ->
  Py.replace (a ++ ".wav" ++ b) ".wav" new
  = Py.replace a ".wav" new ++ new ++ Py.replace b ".wav" new.
Proof.
  revert a. induction n as [|n IH]; intros a Hlen.
  - destruct a; [|simpl in Hlen; lia].
    change ("" ++ ".wav" ++ b) with (".wav" ++ b).
    by rewrite replace_wav_at_start.
  - destruct a as [|c a].
    { change ("" ++ ".wav" ++ b) with (".wav" ++ b).
      by rewrite replace_wav_at_start. }
    destruct (Py.startswith (String c a) ".wav") eqn:Hstart.
    + destruct (prefix_split _ _ Hstart) as [a' Ha']. rewrite Ha'.
      rewrite append_assoc, !replace_wav_at_start.
      rewrite IH, append_assoc; [reflexivity|].
      apply (f_equal String.length) in Ha'. rewrite length_append in Ha'.
      simpl in *. lia.
    + rewrite (replace_no_match_here _ _ _ _ Hstart).
      change (String c a ++ ".wav" ++ b) with (String c (a ++ ".wav" ++ b)).
      rewrite replace_no_match_here.
      * rewrite IH; [reflexivity|]. simpl in Hlen. lia.
      * by apply (wav_no_overlap c a b).
Qed.

(** Every occurrence of [".wav"] is replaced, wherever it stands. *)
Lemma replace_wav_everywhere (a b new : string) :
  Py.replace (a ++ ".wav" ++ b) ".wav" new
  = Py.replace a ".wav" new ++ new ++ Py.replace b ".wav" new.
Proof. by apply (replace_wav_bounded (String.length a)). Qed.

(** [find] finds what occurs. *)
Lemma find_from_lower_bound (sub s : string) (i : Z) :
  occurs_in sub s -> (i <= Py.find_from i sub s)%Z.
Proof.
  intros (a & b & ->). revert i. induction a as [|c a IH]; intros i.
  - change ("" ++ sub ++ b) with (sub ++ b).
    destruct sub as [|c sub]; [by destruct b|].
    cbn [String.append Py.find_from]. unfold Py.startswith.
    change (String c (sub ++ b)) with (String c sub ++ b).
    by rewrite prefix_append.
  - cbn [String.append Py.find_from].
    destruct (Py.startswith _ sub); [reflexivity|].
    specialize (IH (i + 1)%Z). lia.
Qed.

Lemma find_none_not_occurs (sub s : string) :
  Py.find s sub = (-1)%Z -> ~ occurs_in sub s.
Proof.
  intros Hfind Hocc. pose proof (find_from_lower_bound sub s 0 Hocc) as Hle.
  unfold Py.find in Hfind. lia.
Qed.

End Replace.

(** ** The five files *)

Lemma replay_app (evs1 evs2 : list event) (fs : gmap string content) :
  replay (evs1 ++ evs2) fs = replay evs2 (replay evs1 fs).
Proof. apply foldl_app. Qed.

Lemma replay_cons (ev : event) (evs : list event) (fs : gmap string content) :
  replay (ev :: evs) fs = replay evs (replay [ev] fs).
Proof. reflexivity. Qed.

Lemma replay_untouched (evs : list event) (fs : gmap string content) (path : string) :
  Forall (fun ev => event_path ev <> Some path) evs ->
  replay evs fs !! path = fs !! path.
Proof.
  intros Hall. revert fs.
  induction Hall as [|ev evs Hev _ IH]; intros fs; [reflexivity|].
  rewrite replay_cons, IH.
  destruct ev as [name|p|p c]; simpl in *; [reflexivity|..];
    apply lookup_insert_ne; congruence.
Qed.

(** A file written and not touched afterwards is there. *)
Lemma replay_last_write (evs1 evs2 : list event) (fs : gmap string content)
    (path : string) (c : content) :
  Forall (fun ev => event_path ev <> Some path) evs2 ->
  replay (evs1 ++ Wrote path c :: evs2) fs !! path = Some c.
Proof.
  intros Hall. rewrite replay_app, replay_cons.
  rewrite replay_untouched by assumption. apply lookup_insert_eq.
Qed.

Lemma world_extends (fs : gmap string content) (d : gset string) (t : list event)
    (w : world) (evs : list event) :
  t = trace w ++ evs -> d = denied w -> fs = replay evs (files w) ->
  World fs d t = World (replay evs (files w)) (denied w) (trace w ++ evs).
Proof. by intros -> -> ->. Qed.

Lemma world_unchanged (w : world) :
  w = World (replay [] (files w)) (denied w) (trace w ++ []).
Proof. destruct w. simpl. by rewrite app_nil_r. Qed.

Lemma timing_line_raises (line : string) (e : exn) :
  timing_line line = Raise e -> e = "ValueError"%string.
Proof.
  unfold timing_line.
  destruct (Py.split line) as [|t1 [|t2 [|t3 [|t4 rest]]]]; congruence.
Qed.

Lemma timing_line_tokens (line : string) :
  length (Py.split line) <> 3%nat -> timing_line line = Raise "ValueError".
Proof.
  unfold timing_line.
  destruct (Py.split line) as [|t1 [|t2 [|t3 [|t4 rest]]]]; simpl; congruence.
Qed.

(** One line that does not split into three tokens ends the loop with
    [ValueError], wherever it stands. *)
Lemma timing_text_raises (lines : list string) (s : string) :
  Exists (fun line => length (Py.split line) <> 3%nat) lines ->
  timing_text s lines = Raise "ValueError".
Proof.
  intros Hex. revert s. induction Hex as [line rest Hbad|line rest _ IH]; intros s.
  - simpl. by rewrite timing_line_tokens.
  - simpl. destruct (timing_line line) as [out|e] eqn:Hline; [apply IH|].
    by rewrite (timing_line_raises _ _ Hline).
Qed.

(** Line by line: the text is the lines of [timing_line], in order. *)
Lemma timing_text_lines (lines outs : list string) (s : string) :
  Forall2 (fun line out => timing_line line = Ok out) lines outs ->
  timing_text s lines = Ok (s ++ String.concat "" outs)%string.
Proof.
  intros Hall. revert s. induction Hall as [|line out lines outs Hline _ IH]; intros s.
  - simpl. by rewrite append_empty_r.
  - cbn [timing_text]. rewrite Hline, IH. f_equal.
    rewrite append_assoc. f_equal.
    destruct outs; [|reflexivity]. simpl. by rewrite append_empty_r.
Qed.

Ltac run_leaf :=
  simpl; rewrite <- ?app_assoc; simpl;
  eexists; split; [|split];
  [ | eapply world_extends; reflexivity | ];
  [ by eexists | split; intros; (reflexivity || discriminate) ].

Section Outputs.

Context {C : Collaborators}.

Variables (cfg : config) (out_wav_path : string).
Variables (duration_modified_labels : Labels) (f0 sp bap wav : ndarray).

Local Abbreviation run_outputs :=
  (write_outputs cfg out_wav_path duration_modified_labels f0 sp bap wav).
Local Abbreviation plan :=
  (planned_writes cfg out_wav_path duration_modified_labels f0 sp bap wav).

(** [generate_wav_file] writes the normalized samples, if there are any. *)
Lemma generate_wav_file_run (path : string) (w : world) :
  generate_wav_file cfg wav path w =
    match normalize_wav (gain_normalize cfg) wav with
    | Raise e => (Raise e, w)
    | Ok data => wavfile_write path (sample_rate cfg) data w
    end.
Proof.
  unfold generate_wav_file, normalize_wav, bind, lift.
  destruct (bit_depth_step wav) as [wav1|e]; [|reflexivity].
  by destruct (gain_step (gain_normalize cfg) wav1).
Qed.

(** What a run of lines 298 to 314 leaves behind, whatever its outcome. *)
Lemma write_outputs_run (w : world) :
  exists evs : list event,
    evs `prefix_of` plan
    /\ snd (run_outputs w)
       = World (replay evs (files w)) (denied w) (trace w ++ evs)
    /\ (fst (run_outputs w) = Ok tt <-> evs = plan).
Proof.
  unfold write_outputs, write_timing_lab, dump_float64, generate_wav_file,
    wavfile_write, planned_writes, normalize_wav, bind, open_w, write, lift.
  destruct (bool_decide (_ ∈ denied w)).
  { exists []. split; [by eexists|]. split; [apply world_unchanged|].
    split; intros; discriminate. }
  destruct (timing_text _ _) as [s|e]; [|run_leaf].
  simpl. destruct (bool_decide (_ ∈ denied w)); [run_leaf|].
  simpl. destruct (bool_decide (_ ∈ denied w)); [run_leaf|].
  simpl. destruct (bool_decide (_ ∈ denied w)); [run_leaf|].
  simpl. destruct (bit_depth_step wav) as [wav1|e]; [|run_leaf].
  destruct (gain_step _ wav1) as [wav2|e]; [|run_leaf].
  simpl. destruct (bool_decide (_ ∈ denied w)); [run_leaf|].
  simpl. destruct (wavfile_header _ wav2); run_leaf.
Qed.

Local Abbreviation lab_path := (Py.replace out_wav_path ".wav" "_timing.lab").
Local Abbreviation f0_path := (Py.replace out_wav_path ".wav" ".f0").
Local Abbreviation mgc_path := (Py.replace out_wav_path ".wav" ".mgc").
Local Abbreviation bap_path := (Py.replace out_wav_path ".wav" ".bap").
Local Abbreviation label_lines :=
  (Py.splitlines (labels_str duration_modified_labels)).

(** The world once the first [k] events of the plan have happened. *)
Local Abbreviation after k w :=
  (World (replay (take k plan) (files w)) (denied w) (trace w ++ take k plan)).

(** A run of lines 298 to 314, step by step: where it stops and what it
    has done by then. *)
Lemma write_outputs_exact (w : world) :
  run_outputs w =
    if bool_decide (lab_path ∈ denied w) then (Raise "OSError", w)
    else
      match timing_text "" label_lines with
      | Raise e => (Raise e, after 1 w)
      | Ok _ =>
          if bool_decide (f0_path ∈ denied w) then (Raise "OSError", after 2 w)
          else if bool_decide (mgc_path ∈ denied w) then (Raise "OSError", after 4 w)
          else if bool_decide (bap_path ∈ denied w) then (Raise "OSError", after 6 w)
          else
            match normalize_wav (gain_normalize cfg) wav with
            | Raise e => (Raise e, after 8 w)
            | Ok data =>
                if bool_decide (out_wav_path ∈ denied w)
                then (Raise "OSError", after 8 w)
                else
                  match wavfile_header (sample_rate cfg) data with
                  | Raise e => (Raise e, after 9 w)
                  | Ok _ => (Ok tt, after 10 w)
                  end
            end
      end.
Proof.
  unfold write_outputs, write_timing_lab, dump_float64, generate_wav_file,
    wavfile_write, planned_writes, normalize_wav, bind, open_w, write, lift.
  destruct (bool_decide (_ ∈ denied w)); [reflexivity|].
  destruct (timing_text _ _) as [s|e];
    [|simpl; rewrite <- ?app_assoc; reflexivity].
  simpl. destruct (bool_decide (_ ∈ denied w));
    [simpl; rewrite <- ?app_assoc; reflexivity|].
  simpl. destruct (bool_decide (_ ∈ denied w));
    [simpl; rewrite <- ?app_assoc; reflexivity|].
  simpl. destruct (bool_decide (_ ∈ denied w));
    [simpl; rewrite <- ?app_assoc; reflexivity|].
  simpl. destruct (bit_depth_step wav) as [wav1|e];
    [|simpl; rewrite <- ?app_assoc; reflexivity].
  destruct (gain_step _ wav1) as [wav2|e];
    [|simpl; rewrite <- ?app_assoc; reflexivity].
  simpl. destruct (bool_decide (_ ∈ denied w));
    [simpl; rewrite <- ?app_assoc; reflexivity|].
  simpl. destruct (wavfile_header _ wav2) as [[]|e];
    simpl; rewrite <- ?app_assoc; reflexivity.
Qed.

(** C9: the five files are written one after the other, in the order
    timing file, [.f0], [.mgc], [.bap], audio.  Each step is taken as soon
    as the ones before it have succeeded, and a run that goes through
    writes all five.  A run that stops at a later step (a path that cannot
    be opened, the normalization of the waveform, the header of the audio)
    leaves on disk exactly what was written before: nothing is rolled
    back. *)
Theorem outputs_in_order_without_rollback (w : world) :
  map event_path plan
  = [Some (Py.replace out_wav_path ".wav" "_timing.lab");
     Some (Py.replace out_wav_path ".wav" "_timing.lab");
     Some (Py.replace out_wav_path ".wav" ".f0");
     Some (Py.replace out_wav_path ".wav" ".f0");
     Some (Py.replace out_wav_path ".wav" ".mgc");
     Some (Py.replace out_wav_path ".wav" ".mgc");
     Some (Py.replace out_wav_path ".wav" ".bap");
     Some (Py.replace out_wav_path ".wav" ".bap");
     Some out_wav_path; Some out_wav_path]
  /\ (exists evs : list event,
      evs `prefix_of` plan
      /\ snd (run_outputs w)
         = World (replay evs (files w)) (denied w) (trace w ++ evs)
      /\ (fst (run_outputs w) = Ok tt <-> evs = plan)
      /\ forall (evs1 evs2 : list event) (path : string) (c : content),
          evs = evs1 ++ Wrote path c :: evs2 ->
          Forall (fun ev => event_path ev <> Some path) evs2 ->
          files (snd (run_outputs w)) !! path = Some c)
  /\ (lab_path ∈ denied w ->
      is_ok (fst (run_outputs w)) = false /\ snd (run_outputs w) = w)
  /\ (forall e : exn,
        lab_path ∉ denied w -> timing_text "" label_lines = Raise e ->
        run_outputs w = (Raise e, after 1 w))
  /\ (forall s : string,
        lab_path ∉ denied w -> timing_text "" label_lines = Ok s ->
        (f0_path ∈ denied w ->
           is_ok (fst (run_outputs w)) = false /\ snd (run_outputs w) = after 2 w)
        /\ (f0_path ∉ denied w -> mgc_path ∈ denied w ->
            is_ok (fst (run_outputs w)) = false /\ snd (run_outputs w) = after 4 w)
        /\ (f0_path ∉ denied w -> mgc_path ∉ denied w -> bap_path ∈ denied w ->
            is_ok (fst (run_outputs w)) = false /\ snd (run_outputs w) = after 6 w)
        /\ (f0_path ∉ denied w -> mgc_path ∉ denied w -> bap_path ∉ denied w ->
            (forall e : exn,
                normalize_wav (gain_normalize cfg) wav = Raise e ->
                run_outputs w = (Raise e, after 8 w))
            /\ (forall data : ndarray,
                  normalize_wav (gain_normalize cfg) wav = Ok data ->
                  (out_wav_path ∈ denied w ->
                     is_ok (fst (run_outputs w)) = false
                     /\ snd (run_outputs w) = after 8 w)
                  /\ (forall e : exn,
                        out_wav_path ∉ denied w ->
                        wavfile_header (sample_rate cfg) data = Raise e ->
                        run_outputs w = (Raise e, after 9 w))
                  /\ (out_wav_path ∉ denied w ->
                      wavfile_header (sample_rate cfg) data = Ok tt ->
                      run_outputs w = (Ok tt, after 10 w))))).
Proof.
  split; [reflexivity|]. split.
  { destruct (write_outputs_run w) as (evs & Hpre & Hw & Hiff).
    exists evs. repeat split; [assumption|assumption|apply Hiff|apply Hiff|].
    intros evs1 evs2 path c -> Hlater. rewrite Hw. simpl.
    by apply replay_last_write. }
  rewrite write_outputs_exact.
  split.
  { intros Hd. by rewrite bool_decide_eq_true_2. }
  split.
  { intros e Hd Ht. by rewrite bool_decide_eq_false_2, Ht. }
  intros s Hd Ht. rewrite (bool_decide_eq_false_2 _ Hd), Ht.
  split.
  { intros H0. by rewrite bool_decide_eq_true_2. }
  split.
  { intros H0 H1. by rewrite (bool_decide_eq_false_2 _ H0), bool_decide_eq_true_2. }
  split.
  { intros H0 H1 H2.
    by rewrite (bool_decide_eq_false_2 _ H0), (bool_decide_eq_false_2 _ H1),
         bool_decide_eq_true_2. }
  intros H0 H1 H2.
  rewrite (bool_decide_eq_false_2 _ H0), (bool_decide_eq_false_2 _ H1),
    (bool_decide_eq_false_2 _ H2).
  split.
  { intros e Hn. by rewrite Hn. }
  intros data Hn. rewrite Hn.
  split.
  { intros Hd5. by rewrite bool_decide_eq_true_2. }
  split.
  { intros e Hd5 Hh. by rewrite bool_decide_eq_false_2, Hh. }
  intros Hd5 Hh. by rewrite bool_decide_eq_false_2, Hh.
Qed.

(** C5 (amended): a line of the stringified timeline that does not split
    into exactly three tokens raises [ValueError] in the loop and ends the
    run there: the timing file has been opened and is left empty, none of
    its lines is written, and none of the later files is written. *)
Theorem malformed_line_aborts (w : world) :
  Exists (fun line => length (Py.split line) <> 3%nat)
    (Py.splitlines (labels_str duration_modified_labels)) ->
  Py.replace out_wav_path ".wav" "_timing.lab" ∉ denied w ->
  run_outputs w
  = (Raise "ValueError",
     World (<[Py.replace out_wav_path ".wav" "_timing.lab" := Truncated]> (files w))
       (denied w)
       (trace w ++ [Opened (Py.replace out_wav_path ".wav" "_timing.lab")])).
Proof.
  intros Hbad Hopen.
  unfold write_outputs, write_timing_lab, bind, open_w, lift.
  rewrite bool_decide_eq_false_2 by assumption.
  by rewrite timing_text_raises.
Qed.

(** C10: the four other paths are [out_wav_path.replace('.wav', ...)], and
    [replace] replaces every occurrence of [.wav], not only one at the end.
    A run whose steps all succeed opens and writes exactly these paths.  A
    path in which [.wav] does not occur is therefore its own timing, [.f0],
    [.mgc] and [.bap] path: the five files are written to that one path,
    each over the one before, and the audio is what stays. *)
Theorem auxiliary_paths_replace_every_wav (w : world) :
  (forall a b new : string,
      Py.replace (a ++ ".wav" ++ b) ".wav" new
      = (Py.replace a ".wav" new ++ new ++ Py.replace b ".wav" new)%string)
  /\ (fst (run_outputs w) = Ok tt ->
      exists (s : string) (data : ndarray),
        trace (snd (run_outputs w))
        = trace w ++
          [Opened (Py.replace out_wav_path ".wav" "_timing.lab");
           Wrote (Py.replace out_wav_path ".wav" "_timing.lab") (Text s);
           Opened (Py.replace out_wav_path ".wav" ".f0");
           Wrote (Py.replace out_wav_path ".wav" ".f0") (Float64Dump f0);
           Opened (Py.replace out_wav_path ".wav" ".mgc");
           Wrote (Py.replace out_wav_path ".wav" ".mgc") (Float64Dump sp);
           Opened (Py.replace out_wav_path ".wav" ".bap");
           Wrote (Py.replace out_wav_path ".wav" ".bap") (Float64Dump bap);
           Opened out_wav_path;
           Wrote out_wav_path (WavFloat32 (sample_rate cfg) data)])
  /\ (~ occurs_in ".wav" out_wav_path ->
      (forall new : string, Py.replace out_wav_path ".wav" new = out_wav_path)
      /\ (fst (run_outputs w) = Ok tt ->
          exists (s : string) (data : ndarray),
            trace (snd (run_outputs w))
            = trace w ++
              [Opened out_wav_path; Wrote out_wav_path (Text s);
               Opened out_wav_path; Wrote out_wav_path (Float64Dump f0);
               Opened out_wav_path; Wrote out_wav_path (Float64Dump sp);
               Opened out_wav_path; Wrote out_wav_path (Float64Dump bap);
               Opened out_wav_path;
               Wrote out_wav_path (WavFloat32 (sample_rate cfg) data)]
            /\ files (snd (run_outputs w))
               = <[out_wav_path := WavFloat32 (sample_rate cfg) data]> (files w)))
  /\ (forall (s : string) (data : ndarray),
        Py.replace out_wav_path ".wav" "_timing.lab" ∉ denied w ->
        Py.replace out_wav_path ".wav" ".f0" ∉ denied w ->
        Py.replace out_wav_path ".wav" ".mgc" ∉ denied w ->
        Py.replace out_wav_path ".wav" ".bap" ∉ denied w ->
        out_wav_path ∉ denied w ->
        timing_text "" label_lines = Ok s ->
        normalize_wav (gain_normalize cfg) wav = Ok data ->
        wavfile_header (sample_rate cfg) data = Ok tt ->
        run_outputs w
        = (Ok tt,
           World
             (<[out_wav_path := WavFloat32 (sample_rate cfg) data]>
                (<[out_wav_path := Truncated]>
                   (<[Py.replace out_wav_path ".wav" ".bap" := Float64Dump bap]>
                      (<[Py.replace out_wav_path ".wav" ".bap" := Truncated]>
                         (<[Py.replace out_wav_path ".wav" ".mgc" := Float64Dump sp]>
                            (<[Py.replace out_wav_path ".wav" ".mgc" := Truncated]>
                               (<[Py.replace out_wav_path ".wav" ".f0"
                                  := Float64Dump f0]>
                                  (<[Py.replace out_wav_path ".wav" ".f0" := Truncated]>
                                     (<[Py.replace out_wav_path ".wav" "_timing.lab"
                                        := Text s]>
                                        (<[Py.replace out_wav_path ".wav" "_timing.lab"
                                           := Truncated]> (files w)))))))))))
             (denied w)
             (trace w ++
              [Opened (Py.replace out_wav_path ".wav" "_timing.lab");
               Wrote (Py.replace out_wav_path ".wav" "_timing.lab") (Text s);
               Opened (Py.replace out_wav_path ".wav" ".f0");
               Wrote (Py.replace out_wav_path ".wav" ".f0") (Float64Dump f0);
               Opened (Py.replace out_wav_path ".wav" ".mgc");
               Wrote (Py.replace out_wav_path ".wav" ".mgc") (Float64Dump sp);
               Opened (Py.replace out_wav_path ".wav" ".bap");
               Wrote (Py.replace out_wav_path ".wav" ".bap") (Float64Dump bap);
               Opened out_wav_path;
               Wrote out_wav_path (WavFloat32 (sample_rate cfg) data)])))
  /\ (forall (s : string) (data : ndarray),
        ~ occurs_in ".wav" out_wav_path ->
        out_wav_path ∉ denied w ->
        timing_text "" label_lines = Ok s ->
        normalize_wav (gain_normalize cfg) wav = Ok data ->
        wavfile_header (sample_rate cfg) data = Ok tt ->
        run_outputs w
        = (Ok tt,
           World (<[out_wav_path := WavFloat32 (sample_rate cfg) data]> (files w))
             (denied w)
             (trace w ++
              [Opened out_wav_path; Wrote out_wav_path (Text s);
               Opened out_wav_path; Wrote out_wav_path (Float64Dump f0);
               Opened out_wav_path; Wrote out_wav_path (Float64Dump sp);
               Opened out_wav_path; Wrote out_wav_path (Float64Dump bap);
               Opened out_wav_path;
               Wrote out_wav_path (WavFloat32 (sample_rate cfg) data)])))
  /\ (forall e : exn,
        ~ occurs_in ".wav" out_wav_path ->
        out_wav_path ∉ denied w ->
        timing_text "" label_lines = Raise e ->
        run_outputs w
        = (Raise e,
           World (<[out_wav_path := Truncated]> (files w)) (denied w)
             (trace w ++ [Opened out_wav_path]))).
Proof.
  split; [apply replace_wav_everywhere|].
  destruct (write_outputs_run w) as (evs & _ & Hw & Hiff).
  split.
  { intros Hok. apply Hiff in Hok. subst evs. rewrite Hw. simpl.
    eexists _, _. reflexivity. }
  split.
  { intros Hno.
    assert (forall new, Py.replace out_wav_path ".wav" new = out_wav_path) as Hid.
    { intros new. by apply replace_no_occurrence. }
    split; [assumption|].
    intros Hok. apply Hiff in Hok. subst evs. rewrite Hw.
    unfold planned_writes. rewrite !Hid. simpl.
    eexists _, _. split; [reflexivity|].
    by rewrite !insert_insert_eq. }
  assert (forall s data,
             lab_path ∉ denied w -> f0_path ∉ denied w -> mgc_path ∉ denied w ->
             bap_path ∉ denied w -> out_wav_path ∉ denied w ->
             timing_text "" label_lines = Ok s ->
             normalize_wav (gain_normalize cfg) wav = Ok data ->
             wavfile_header (sample_rate cfg) data = Ok tt ->
             run_outputs w = (Ok tt, after 10 w)) as Hall.
  { intros s data H1 H2 H3 H4 H5 Ht Hn Hh. rewrite write_outputs_exact.
    by rewrite !bool_decide_eq_false_2, Ht, Hn, Hh by assumption. }
  split.
  { intros s data H1 H2 H3 H4 H5 Ht Hn Hh.
    rewrite (Hall s data) by assumption.
    unfold planned_writes. rewrite Ht, Hn. reflexivity. }
  split.
  { intros s data Hno H5 Ht Hn Hh.
    assert (forall new, Py.replace out_wav_path ".wav" new = out_wav_path) as Hid.
    { intros new. by apply replace_no_occurrence. }
    rewrite (Hall s data) by (rewrite ?Hid; assumption).
    unfold planned_writes. rewrite !Hid, Ht, Hn. simpl.
    by rewrite !insert_insert_eq. }
  intros e Hno H5 Ht.
  assert (forall new, Py.replace out_wav_path ".wav" new = out_wav_path) as Hid.
  { intros new. by apply replace_no_occurrence. }
  rewrite write_outputs_exact.
  rewrite bool_decide_eq_false_2, Ht by (rewrite ?Hid; assumption).
  unfold planned_writes. rewrite !Hid. reflexivity.
Qed.

End Outputs.

Lemma outputs_in_order_without_rollback_witness :
  fst (@write_outputs (Stub.collaborators Stub.two_lines 2 [])
         (Stub.cfg None None None None true true) "out.wav" Stub.two_lines
         [Np.of_Z 440] [Np.of_Z 1] [Np.of_Z 2] [] Stub.empty_world)
  = Raise "ValueError"
  /\ files (snd (@write_outputs (Stub.collaborators Stub.two_lines 2 [])
                   (Stub.cfg None None None None true true) "out.wav" Stub.two_lines
                   [Np.of_Z 440] [Np.of_Z 1] [Np.of_Z 2] [] Stub.empty_world))
     = {[ "out_timing.lab"%string
            := Text ("0 50 c" ++ String "010" ("50 100 d" ++ String "010" ""));
          "out.f0"%string := Float64Dump [Np.of_Z 440];
          "out.mgc"%string := Float64Dump [Np.of_Z 1];
          "out.bap"%string := Float64Dump [Np.of_Z 2] ]}.
Proof.
  pose proof (@outputs_in_order_without_rollback
                (Stub.collaborators Stub.two_lines 2 [])
                (Stub.cfg None None None None true true) "out.wav" Stub.two_lines
                [Np.of_Z 440] [Np.of_Z 1] [Np.of_Z 2] [] Stub.empty_world)
    as (_ & _ & _ & _ & Hsteps).
  destruct (Hsteps ("0 50 c" ++ String "010" ("50 100 d" ++ String "010" ""))%string
              ltac:(apply not_elem_of_empty) eq_refl)
    as (_ & _ & _ & Hlate).
  destruct (Hlate ltac:(apply not_elem_of_empty) ltac:(apply not_elem_of_empty)
              ltac:(apply not_elem_of_empty)) as [Hraise _].
  rewrite (Hraise "ValueError"%string eq_refl).
  split; [reflexivity|]. vm_compute. reflexivity.
Defined.

Lemma malformed_line_aborts_witness :
  @write_outputs (Stub.collaborators Stub.broken_lines 2 [Np.of_Z 16000])
    (Stub.cfg None None None None true false) "out.wav" Stub.broken_lines
    [Np.of_Z 440] [Np.of_Z 1] [Np.of_Z 2] [Np.of_Z 16000] Stub.empty_world
  = (Raise "ValueError",
     World {["out_timing.lab"%string := Truncated]} ∅ [Opened "out_timing.lab"]).
Proof.
  refine (@malformed_line_aborts (Stub.collaborators Stub.broken_lines 2 [Np.of_Z 16000])
            (Stub.cfg None None None None true false) "out.wav" Stub.broken_lines
            [Np.of_Z 440] [Np.of_Z 1] [Np.of_Z 2] [Np.of_Z 16000]
            Stub.empty_world _ _).
  - apply Exists_cons_tl, Exists_cons_hd. vm_compute. discriminate.
  - apply not_elem_of_empty.
Defined.

(** C5 as stated fails: the line ["50 100"] is not skipped; the run ends
    with [ValueError], the timing file is empty and there is no [.f0] file. *)
Lemma malformed_line_is_not_skipped :
  fst (@write_outputs (Stub.collaborators Stub.broken_lines 2 [Np.of_Z 16000])
         (Stub.cfg None None None None true false) "out.wav" Stub.broken_lines
         [Np.of_Z 440] [Np.of_Z 1] [Np.of_Z 2] [Np.of_Z 16000] Stub.empty_world)
  = Raise "ValueError"
  /\ files (snd (@write_outputs (Stub.collaborators Stub.broken_lines 2 [Np.of_Z 16000])
                   (Stub.cfg None None None None true false) "out.wav" Stub.broken_lines
                   [Np.of_Z 440] [Np.of_Z 1] [Np.of_Z 2] [Np.of_Z 16000]
                   Stub.empty_world))
     = {["out_timing.lab"%string := Truncated]}.
Proof. split; reflexivity. Qed.

Lemma auxiliary_paths_replace_every_wav_witness :
  @write_outputs (Stub.collaborators Stub.two_lines 2 [])
    (Stub.cfg None None None None true false) "take1" Stub.two_lines
    [Np.of_Z 440] [Np.of_Z 1] [Np.of_Z 2] [Np.of_Z 16000] Stub.empty_world
  = (Ok tt,
     World
       {[ "take1"%string
            := WavFloat32 44100 (Np.div_scalar [Np.of_Z 16000] (Np.of_Z 32767)) ]}
       ∅
       [Opened "take1";
        Wrote "take1"
          (Text ("0 50 c" ++ String "010" ("50 100 d" ++ String "010" "")));
        Opened "take1"; Wrote "take1" (Float64Dump [Np.of_Z 440]);
        Opened "take1"; Wrote "take1" (Float64Dump [Np.of_Z 1]);
        Opened "take1"; Wrote "take1" (Float64Dump [Np.of_Z 2]);
        Opened "take1";
        Wrote "take1"
          (WavFloat32 44100 (Np.div_scalar [Np.of_Z 16000] (Np.of_Z 32767)))]).
Proof.
  pose proof (@auxiliary_paths_replace_every_wav
                (Stub.collaborators Stub.two_lines 2 [])
                (Stub.cfg None None None None true false) "take1" Stub.two_lines
                [Np.of_Z 440] [Np.of_Z 1] [Np.of_Z 2] [Np.of_Z 16000]
                Stub.empty_world)
    as (_ & _ & _ & _ & Hsame & _).
  exact (Hsame ("0 50 c" ++ String "010" ("50 100 d" ++ String "010" ""))%string
           (Np.div_scalar [Np.of_Z 16000] (Np.of_Z 32767))
           (find_none_not_occurs ".wav" "take1" eq_refl)
           (not_elem_of_empty (C := gset string) "take1"%string)
           eq_refl eq_refl eq_refl).
Defined.

(** ** The whole of [hts2wav] *)

Ltac step_run :=
  first
    [ rewrite load_qst_run
    | match goal with
      | |- context [match ?x with Ok _ => _ | Raise _ => _ end] =>
          lazymatch x with
          | context [match _ with _ => _ end] => fail
          | _ => destruct x
          end
      | |- context [match ?p with pair _ _ => _ end] => is_var p; destruct p
      end ];
  simpl.

Section Whole.

Context {C : Collaborators}.

(** [synthesis] writes no file. *)
Lemma synthesis_keeps_files (cfg : config) (device label_path : string)
    (timelag_model : Model) (timelag_config : ModelConfig)
    (timelag_in_scaler timelag_out_scaler : Scaler)
    (duration_model : Model) (duration_config : ModelConfig)
    (duration_in_scaler duration_out_scaler : Scaler)
    (acoustic_model : Model) (acoustic_config : ModelConfig)
    (acoustic_in_scaler acoustic_out_scaler : Scaler) (w : world) :
  let w' :=
    snd (synthesis cfg device label_path
           timelag_model timelag_config timelag_in_scaler timelag_out_scaler
           duration_model duration_config duration_in_scaler duration_out_scaler
           acoustic_model acoustic_config acoustic_in_scaler acoustic_out_scaler w) in
  files w' = files w /\ denied w' = denied w.
Proof.
  unfold synthesis, resolve_timing, bind, call, ret.
  destruct (hts_load label_path); [|done].
  destruct (ground_truth_duration _).
  - repeat step_run; done.
  - unfold bind, call. repeat step_run; done.
Qed.

(** A run of [hts2wav] either ends before line 298 and leaves the files
    alone, or is a run of lines 298 to 314 on the files as they were. *)
Lemma hts2wav_reaches_outputs (cfg : config) (label_path out_wav_path : option string)
    (w : world) :
  (is_ok (fst (hts2wav cfg label_path out_wav_path w)) = false
   /\ files (snd (hts2wav cfg label_path out_wav_path w)) = files w)
  \/ exists (cfg' : config) (out : string) (labels : Labels)
        (f0 sp bap wav : ndarray) (w1 : world),
      files w1 = files w /\ denied w1 = denied w
      /\ maybe_set_normalization_stats_ (maybe_set_checkpoints_ cfg) = Ok cfg'
      /\ match out_wav_path with
         | Some p => out = p
         | None => cfg_out_wav_path cfg' = Some out
         end
      /\ hts2wav cfg label_path out_wav_path w
         = write_outputs cfg' out labels f0 sp bap wav w1.
Proof.
  unfold hts2wav, bind, call.
  destruct (maybe_set_normalization_stats_ _) as [cfg'|e] eqn:Hcfg; [|by left].
  destruct (load_stage _ cfg' timelag) as [[[[tc tm] tis] tos]|e]; [|by left].
  destruct (load_stage _ cfg' duration) as [[[[dc dm] dis] dos]|e]; [|by left].
  destruct (load_stage _ cfg' acoustic) as [[[[ac am] ais] aos]|e]; [|by left].
  set (w0 := log _ (log _ (log _ (log _ w)))).
  assert (files w0 = files w /\ denied w0 = denied w) as [Hf0 Hd0] by done.
  clearbody w0.
  assert (exists lp : option string,
             match label_path with
             | Some p => ret p
             | None => match cfg_label_path cfg' with
                       | Some p => ret p
                       | None => raise "AssertionError"
                       end
             end w0
             = (match lp with Some p => Ok p | None => Raise "AssertionError" end, w0))
    as [lp ->].
  { destruct label_path as [p|]; [by exists (Some p)|].
    destruct (cfg_label_path cfg') as [p|]; [by exists (Some p)|by exists None]. }
  destruct lp as [lp|]; [|by left].
  match goal with
  | |- context [synthesis ?x1 ?x2 ?x3 ?x4 ?x5 ?x6 ?x7 ?x8 ?x9 ?x10 ?x11 ?x12
                  ?x13 ?x14 ?x15 w0] =>
      pose proof (synthesis_keeps_files x1 x2 x3 x4 x5 x6 x7 x8 x9 x10 x11 x12
                    x13 x14 x15 w0) as Hkeep;
      destruct (synthesis x1 x2 x3 x4 x5 x6 x7 x8 x9 x10 x11 x12 x13 x14 x15 w0)
        as [[r|err] w1]
  end; simpl in Hkeep; destruct Hkeep as [Hf1 Hd1].
  2:{ left. simpl. split; [done|congruence]. }
  destruct r as [[[[labels f0] sp] bap] wav].
  destruct out_wav_path as [p|].
  - right. exists cfg', p, labels, f0, sp, bap, wav, w1.
    repeat split; congruence.
  - destruct (cfg_out_wav_path cfg') as [p|] eqn:Hout.
    + right. exists cfg', p, labels, f0, sp, bap, wav, w1.
      repeat split; congruence.
    + left. simpl. split; [done|congruence].
Qed.

End Whole.

(** Two label entries, the alignment given, a waveform of amplitude 16000
    and no gain normalization: the audio holds the samples divided by
    32767, and the four other files stand next to it. *)
Example hts2wav_end_to_end :
  let result :=
    @hts2wav (Stub.collaborators Stub.two_lines 2 [Np.of_Z 16000; Np.of_Z (-16000)])
      (Stub.cfg None None None (Some "question.hed"%string) true false)
      (Some "song.lab"%string) (Some "song.wav"%string) Stub.empty_world in
  fst result = Ok tt
  /\ files (snd result) !! "song.wav"%string
     = Some (WavFloat32 44100
               (Np.div_scalar [Np.of_Z 16000; Np.of_Z (-16000)] (Np.of_Z 32767)))
  /\ files (snd result) !! "song_timing.lab"%string
     = Some (Text ("0 50 c" ++ String "010" ("50 100 d" ++ String "010" "")))
  /\ dom (files (snd result))
     = {["song_timing.lab"; "song.f0"; "song.mgc"; "song.bap"; "song.wav"]}%string.
Proof. vm_compute. repeat split. Qed.

(** * Further properties *)

(** ** Scaling and the maximum *)

Section Scaling.

Local Open Scope Qc_scope.

Lemma foldl_maximum_attained (rest : ndarray) (a0 q : Qc) :
  a0 <= q ->
  Forall (fun x => exists a, x = Np.Fin a /\ a <= q) rest ->
  a0 = q \/ Exists (fun x => x = Np.Fin q) rest ->
  foldl Np.maximum (Np.Fin a0) rest = Np.Fin q.
Proof.
  revert a0. induction rest as [|x rest IH]; intros a0 Ha0 Hall Hatt; simpl.
  - destruct Hatt as [->|Hex]; [reflexivity|]. by apply Exists_nil in Hex.
  - apply Forall_cons in Hall as [(a & -> & Ha) Hall].
    unfold Np.maximum; simpl. unfold Np.Qc_ltb.
    case_bool_decide as Hlt.
    + apply IH; [assumption..|].
      destruct Hatt as [->|Hex].
      * left. apply Qcle_antisym; auto using Qclt_le_weak.
      * apply Exists_cons in Hex as [[= ->]|Hex]; auto.
    + apply Qcnot_lt_le in Hlt. apply IH; [assumption..|].
      destruct Hatt as [->|Hex]; [by left|].
      apply Exists_cons in Hex as [[= ->]|Hex]; [|auto].
      left. by apply Qcle_antisym.
Qed.

Lemma Qcinv_nonneg (c : Qc) : 0 < c -> 0 <= / c.
Proof.
  intros Hc. apply Qcnot_lt_le. intros Hneg.
  assert (c <> 0) as Hne by (intros ->; by apply Qclt_not_eq in Hc).
  pose proof (Qcmult_lt_compat_r _ _ c Hc Hneg) as Hlt.
  rewrite Qcmult_inv_l, Qcmult_0_l in Hlt by assumption.
  by apply (Qclt_not_le _ _ Hlt).
Qed.

Lemma Qcabs_div_pos (v c : Qc) : 0 < c -> Qcabs (v / c) = Qcabs v / c.
Proof.
  intros Hc. unfold Qcdiv.
  by rewrite Qcabs_Qcmult, (Qcabs_pos (/ c)) by by apply Qcinv_nonneg.
Qed.

Lemma Qc_pos_neq_0 (c : Qc) : 0 < c -> c <> 0.
Proof. intros Hc ->. by apply Qclt_not_eq in Hc. Qed.

(** Dividing by a positive number divides the maximum. *)
Lemma max_abs_scaled (l : ndarray) (q c : Qc) :
  Np.max (Np.abs l) = Ok (Np.Fin q) -> 0 < c ->
  Np.max (Np.abs (Np.div_scalar l (Np.Fin c))) = Ok (Np.Fin (q / c)).
Proof.
  intros Hmax Hc. pose proof (Qc_pos_neq_0 _ Hc) as Hne.
  destruct (max_abs_fin _ _ Hmax) as [Hall Hex].
  assert (Forall (fun y => exists a, y = Np.Fin a /\ a <= q / c)
            (Np.abs (Np.div_scalar l (Np.Fin c)))) as Hb.
  { unfold Np.abs, Np.div_scalar. rewrite !List.Forall_map.
    eapply Forall_impl; [exact Hall|]. intros x (v & -> & Hv).
    rewrite true_divide_fin by assumption. simpl.
    eexists; split; [reflexivity|]. rewrite Qcabs_div_pos by assumption.
    apply Qcmult_le_compat_r; [assumption|by apply Qcinv_nonneg]. }
  assert (Exists (fun y => y = Np.Fin (q / c))
            (Np.abs (Np.div_scalar l (Np.Fin c)))) as Ha.
  { unfold Np.abs, Np.div_scalar. rewrite !List.Exists_map.
    eapply Exists_impl; [exact Hex|]. intros x (v & -> & Hv).
    rewrite true_divide_fin by assumption. simpl.
    by rewrite Qcabs_div_pos, Hv by assumption. }
  destruct (Np.abs (Np.div_scalar l (Np.Fin c))) as [|y rest]; simpl.
  - by apply Exists_nil in Ha.
  - apply Forall_cons in Hb as [(a & -> & Hle) Hb].
    f_equal. apply foldl_maximum_attained; [assumption..|].
    apply Exists_cons in Ha as [[= ->]|Ha]; auto.
Qed.

Lemma div_scalar_bounded (l : ndarray) (q c : Qc) :
  Np.max (Np.abs l) = Ok (Np.Fin q) -> 0 < c -> q <= c ->
  Forall (fun y => exists v, y = Np.Fin v /\ Qcabs v <= 1)
    (Np.div_scalar l (Np.Fin c)).
Proof.
  intros Hmax Hc Hqc. pose proof (Qc_pos_neq_0 _ Hc) as Hne.
  destruct (max_abs_fin _ _ Hmax) as [Hall _].
  unfold Np.div_scalar. rewrite List.Forall_map.
  eapply Forall_impl; [exact Hall|]. intros x (v & -> & Hv).
  rewrite true_divide_fin by assumption.
  eexists; split; [reflexivity|].
  apply Qcabs_div_le_1; eauto using Qcle_trans.
Qed.

Lemma Qcinv_pos (c : Qc) : 0 < c -> 0 < / c.
Proof.
  intros Hc. destruct (Qcle_lt_or_eq _ _ (Qcinv_nonneg _ Hc)) as [|Hz]; [assumption|].
  pose proof (Qcmult_inv_l c (Qc_pos_neq_0 _ Hc)) as Hone.
  rewrite <- Hz, Qcmult_0_l in Hone. by destruct Q_apart_0_1.
Qed.

Lemma Qc_of_Z_pos (n : Z) : (0 < n)%Z -> 0 < Qc_of_Z n.
Proof. intros Hn. rewrite <- Z2Qc_inj_0. by apply (proj1 (Z2Qc_inj_lt 0 n)). Qed.

Lemma Qcdiv_gt_1 (q c : Qc) : 0 < c -> c < q -> 1 < q / c.
Proof.
  intros Hc Hq. rewrite <- (Qcmult_inv_r c) by by apply Qc_pos_neq_0.
  apply Qcmult_lt_compat_r; [by apply Qcinv_pos|assumption].
Qed.

(** The three branches of the step, for a finite maximum. *)
Lemma bit_depth_step_finite (wav : ndarray) (q : Qc) :
  Np.max (Np.abs wav) = Ok (Np.Fin q) ->
  (Qc_of_Z 8388608 < q ->
     bit_depth_step wav = Ok (Np.div_scalar wav (Np.of_Z 2147483647)))
  /\ (Qc_of_Z 8 < q -> q <= Qc_of_Z 8388608 ->
        bit_depth_step wav = Ok (Np.div_scalar wav (Np.of_Z 32767)))
  /\ (q <= Qc_of_Z 8 -> bit_depth_step wav = Ok wav).
Proof.
  intros Hmax. rewrite bit_depth_step_by_max, Hmax.
  repeat split.
  - intros Hgt. by rewrite (proj2 (gt_finite q 8388608) Hgt).
  - intros Hgt Hle.
    destruct (Np.gt (Np.Fin q) (Np.of_Z 8388608)) eqn:Hbig.
    + apply gt_finite in Hbig. by apply Qcle_not_lt in Hle.
    + by rewrite (proj2 (gt_finite q 8) Hgt).
  - intros Hle.
    destruct (Np.gt (Np.Fin q) (Np.of_Z 8388608)) eqn:Hbig.
    + apply gt_finite in Hbig. exfalso.
      apply (Qcle_not_lt _ _ Hle). eapply Qclt_trans; [|exact Hbig].
      by apply Z2Qc_inj_lt.
    + destruct (Np.gt (Np.Fin q) (Np.of_Z 8)) eqn:Hsmall; [|reflexivity].
      apply gt_finite in Hsmall. by apply Qcle_not_lt in Hle.
Qed.

(** A NaN anywhere makes the maximum NaN. *)
Lemma foldl_maximum_nan (rest : ndarray) (acc : float64) :
  acc = Np.NaN \/ In Np.NaN rest -> foldl Np.maximum acc rest = Np.NaN.
Proof.
  revert acc. induction rest as [|x rest IH]; intros acc [Hacc|Hin]; simpl.
  - assumption.
  - destruct Hin.
  - apply IH. left. by rewrite Hacc.
  - apply IH. destruct Hin as [->|Hin]; [|by right].
    left. unfold Np.maximum. by destruct acc.
Qed.

Lemma max_abs_nan (l : ndarray) : In Np.NaN l -> Np.max (Np.abs l) = Ok Np.NaN.
Proof.
  intros Hin. destruct l as [|x rest]; [destruct Hin|].
  simpl. f_equal. apply foldl_maximum_nan.
  destruct Hin as [->|Hin]; [by left|].
  right. change (In (Np.fabs Np.NaN) (map Np.fabs rest)). by apply in_map.
Qed.

End Scaling.

(** X1: the bit-depth step divides the maximum by the full scale it
    assumes.  The corrected samples lie within [-1, 1] when the maximum does
    not exceed that full scale; a maximum between 32767 and 8388608 is still
    taken for 16-bit data and leaves samples above 1. *)
Theorem bit_depth_step_full_scale (wav : ndarray) (q : Qc) :
  Np.max (Np.abs wav) = Ok (Np.Fin q) ->
  ((Qc_of_Z 8388608 < q)%Qc ->
     exists out : ndarray,
       bit_depth_step wav = Ok out
       /\ Np.max (Np.abs out) = Ok (Np.Fin (q / Qc_of_Z 2147483647))
       /\ ((q <= Qc_of_Z 2147483647)%Qc ->
            Forall (fun y => exists v, y = Np.Fin v /\ (Qcabs v <= 1)%Qc) out))
  /\ ((Qc_of_Z 8 < q)%Qc -> (q <= Qc_of_Z 8388608)%Qc ->
      exists out : ndarray,
        bit_depth_step wav = Ok out
        /\ Np.max (Np.abs out) = Ok (Np.Fin (q / Qc_of_Z 32767))
        /\ ((q <= Qc_of_Z 32767)%Qc ->
             Forall (fun y => exists v, y = Np.Fin v /\ (Qcabs v <= 1)%Qc) out)
        /\ ((Qc_of_Z 32767 < q)%Qc -> (1 < q / Qc_of_Z 32767)%Qc)).
Proof.
  intros Hmax.
  destruct (bit_depth_step_finite wav q Hmax) as (H32 & H16 & _).
  split.
  - intros Hbig. eexists. split; [by apply H32|].
    split; [apply max_abs_scaled; [assumption|by apply Qc_of_Z_pos]|].
    intros Hle. apply (div_scalar_bounded _ q); [assumption|by apply Qc_of_Z_pos|assumption].
  - intros Hgt Hle. eexists. split; [by apply H16|].
    split; [apply max_abs_scaled; [assumption|by apply Qc_of_Z_pos]|].
    split.
    + intros Hin. apply (div_scalar_bounded _ q); [assumption|by apply Qc_of_Z_pos|assumption].
    + intros Hout. apply Qcdiv_gt_1; [by apply Qc_of_Z_pos|assumption].
Qed.

Lemma bit_depth_step_full_scale_witness :
  exists out : ndarray,
    bit_depth_step [Np.of_Z 16000; Np.of_Z (-8000)] = Ok out
    /\ Np.max (Np.abs out) = Ok (Np.Fin (Qc_of_Z 16000 / Qc_of_Z 32767)).
Proof.
  destruct (proj2 (bit_depth_step_full_scale [Np.of_Z 16000; Np.of_Z (-8000)]
                     (Qc_of_Z 16000)
                     ltac:(vm_compute; apply (f_equal Ok), (f_equal Np.Fin),
                             Qc_is_canon; reflexivity))
              ltac:(apply (proj1 (Z2Qc_inj_lt 8 16000)); reflexivity)
              ltac:(apply (proj1 (Z2Qc_inj_le 16000 8388608)); discriminate))
    as (out & Hstep & Hmax & _).
  exists out. auto.
Defined.

(** X3: one NaN sample is enough for the depth to be taken as float, so the
    samples are left unscaled; with [gain_normalize] every sample of the
    output is then NaN. *)
Theorem nan_sample_poisons_output (wav : ndarray) :
  In Np.NaN wav ->
  estimate_bit_depth wav = Ok "float"%string
  /\ normalize_wav false wav = Ok wav
  /\ normalize_wav true wav = Ok (map (fun _ => Np.NaN) wav).
Proof.
  intros Hin. pose proof (max_abs_nan _ Hin) as Hmax.
  assert (bit_depth_step wav = Ok wav) as Hstep.
  { by rewrite bit_depth_step_by_max, Hmax. }
  split; [by rewrite estimate_bit_depth_by_max, Hmax|].
  unfold normalize_wav, gain_step. rewrite Hstep, Hmax.
  split; [reflexivity|]. f_equal. unfold Np.div_scalar.
  apply map_ext. intros x. by destruct x.
Qed.

Lemma nan_sample_poisons_output_witness :
  normalize_wav true [Np.of_Z 20000; Np.NaN; Np.of_Z 3]
  = Ok [Np.NaN; Np.NaN; Np.NaN].
Proof.
  apply (nan_sample_poisons_output [Np.of_Z 20000; Np.NaN; Np.of_Z 3]).
  right. left. reflexivity.
Defined.

(** ** The audio file *)

Lemma div_scalar_length (a : ndarray) (d : float64) :
  length (Np.div_scalar a d) = length a.
Proof. unfold Np.div_scalar. apply length_map. Qed.

Lemma normalize_wav_length (gain : bool) (wav : ndarray) :
  wav <> [] ->
  exists data, normalize_wav gain wav = Ok data /\ length data = length wav.
Proof.
  intros Hne. unfold normalize_wav.
  destruct (bit_depth_step wav) as [wav1|e] eqn:Hstep.
  - assert (length wav1 = length wav) as Hlen.
    { rewrite bit_depth_step_by_max in Hstep.
      destruct (Np.max (Np.abs wav)); [|discriminate].
      injection Hstep as <-. repeat case_match; auto using div_scalar_length. }
    unfold gain_step. destruct gain; [|eauto].
    destruct (max_nonempty _ (abs_nonempty _ (bit_depth_step_nonempty _ _ Hstep)))
      as [m ->].
    eexists. split; [reflexivity|]. by rewrite div_scalar_length.
  - rewrite bit_depth_step_by_max in Hstep.
    destruct (max_nonempty _ (abs_nonempty _ Hne)) as [m Hm].
    rewrite Hm in Hstep. discriminate.
Qed.

Lemma normalize_wav_empty (gain : bool) : normalize_wav gain [] = Raise "ValueError".
Proof. reflexivity. Qed.

(** The header is accepted for a rate and a number of samples in range. *)
Lemma wavfile_header_in_range (rate : Z) (data : ndarray) :
  (0 <= rate < 2 ^ 30)%Z -> (Z.of_nat (length data) <= 1073741811)%Z ->
  wavfile_header rate data = Ok tt.
Proof.
  intros Hrate Hlen. unfold wavfile_header.
  rewrite (proj2 (Z.leb_le 0 rate)), (proj2 (Z.ltb_lt (rate * 4) (2 ^ 32))) by lia.
  rewrite (proj2 (Z.ltb_lt (Z.of_nat (length data)) (2 ^ 32))) by lia.
  by rewrite (proj2 (Z.ltb_ge 4294967295 (50 + 4 * Z.of_nat (length data)))) by lia.
Qed.

(** A rate that does not fit an unsigned 32-bit field is refused. *)
Lemma wavfile_header_rate_out_of_range (rate : Z) (data : ndarray) :
  (rate < 0 \/ 2 ^ 30 <= rate)%Z -> wavfile_header rate data = Raise "struct.error".
Proof.
  intros Hrate. unfold wavfile_header.
  destruct Hrate as [Hneg|Hbig].
  - by rewrite (proj2 (Z.leb_gt 0 rate)) by lia.
  - rewrite (proj2 (Z.ltb_ge (rate * 4) (2 ^ 32))) by lia.
    by rewrite andb_false_r.
Qed.

(** X4: [generate_wav_file] on an empty waveform raises [ValueError] before
    it touches anything.  On a waveform with at least one sample the
    normalization succeeds and keeps the number of samples, and what happens
    next is decided by the path and by the header: a path that cannot be
    opened leaves everything as it was; a header that the writer refuses
    (a sample rate below 0 or from [2^30] on, for one) leaves the file
    opened and empty, with the exception of the writer; otherwise the one
    file is written, with the normalized samples at the configured rate.  A
    rate from 0 to below [2^30] with at most 1073741811 samples is accepted. *)
Theorem generate_wav_file_effect (cfg : config) (wav : ndarray) (path : string)
    (w : world) :
  (wav = [] -> generate_wav_file cfg wav path w = (Raise "ValueError", w))
  /\ (wav <> [] ->
      exists data : ndarray,
        normalize_wav (gain_normalize cfg) wav = Ok data
        /\ length data = length wav
        /\ (path ∈ denied w ->
            is_ok (fst (generate_wav_file cfg wav path w)) = false
            /\ snd (generate_wav_file cfg wav path w) = w)
        /\ (forall e : exn,
              path ∉ denied w -> wavfile_header (sample_rate cfg) data = Raise e ->
              generate_wav_file cfg wav path w
              = (Raise e,
                 World (<[path := Truncated]> (files w)) (denied w)
                   (trace w ++ [Opened path])))
        /\ (path ∉ denied w -> (sample_rate cfg < 0 \/ 2 ^ 30 <= sample_rate cfg)%Z ->
            generate_wav_file cfg wav path w
            = (Raise "struct.error",
               World (<[path := Truncated]> (files w)) (denied w)
                 (trace w ++ [Opened path])))
        /\ (path ∉ denied w -> wavfile_header (sample_rate cfg) data = Ok tt ->
            generate_wav_file cfg wav path w
            = (Ok tt,
               World (<[path := WavFloat32 (sample_rate cfg) data]> (files w))
                 (denied w)
                 (trace w ++ [Opened path;
                              Wrote path (WavFloat32 (sample_rate cfg) data)])))
        /\ (path ∉ denied w -> (0 <= sample_rate cfg < 2 ^ 30)%Z ->
            (Z.of_nat (length wav) <= 1073741811)%Z ->
            generate_wav_file cfg wav path w
            = (Ok tt,
               World (<[path := WavFloat32 (sample_rate cfg) data]> (files w))
                 (denied w)
                 (trace w ++ [Opened path;
                              Wrote path (WavFloat32 (sample_rate cfg) data)])))).
Proof.
  split.
  { intros ->. by rewrite generate_wav_file_run, normalize_wav_empty. }
  intros Hne.
  destruct (normalize_wav_length (gain_normalize cfg) wav Hne) as (data & Hn & Hlen).
  exists data. split; [assumption|]. split; [assumption|].
  rewrite generate_wav_file_run, Hn.
  unfold wavfile_write, bind, open_w, write, lift.
  assert (forall e : exn,
             path ∉ denied w -> wavfile_header (sample_rate cfg) data = Raise e ->
             (if bool_decide (path ∈ denied w) then (Raise "OSError", w)
              else (Ok tt, World (<[path := Truncated]> (files w)) (denied w)
                             (trace w ++ [Opened path])))
             = (Ok tt, World (<[path := Truncated]> (files w)) (denied w)
                         (trace w ++ [Opened path]))
             /\ wavfile_header (sample_rate cfg) data = Raise e) as Hrefused.
  { intros e Hopen Hh. by rewrite bool_decide_eq_false_2. }
  assert (path ∉ denied w -> wavfile_header (sample_rate cfg) data = Ok tt ->
          match
            (if bool_decide (path ∈ denied w) then (Raise "OSError", w)
             else (Ok tt, World (<[path := Truncated]> (files w)) (denied w)
                            (trace w ++ [Opened path])))
          with
          | (Ok _, w') =>
              match wavfile_header (sample_rate cfg) data with
              | Ok _ =>
                  (Ok tt,
                   World (<[path := WavFloat32 (sample_rate cfg) data]> (files w'))
                     (denied w')
                     (trace w' ++ [Wrote path (WavFloat32 (sample_rate cfg) data)]))
              | Raise e => (Raise e, w')
              end
          | (Raise e, w') => (Raise e, w')
          end
          = (Ok tt,
             World (<[path := WavFloat32 (sample_rate cfg) data]> (files w))
               (denied w)
               (trace w ++ [Opened path;
                            Wrote path (WavFloat32 (sample_rate cfg) data)])))
    as Hwritten.
  { intros Hopen Hh. rewrite bool_decide_eq_false_2, Hh by assumption. simpl.
    by rewrite insert_insert_eq, <- app_assoc. }
  split.
  { intros Hdenied. by rewrite bool_decide_eq_true_2. }
  split.
  { intros e Hopen Hh. destruct (Hrefused e Hopen Hh) as [-> ->]. reflexivity. }
  split.
  { intros Hopen Hrate.
    destruct (Hrefused "struct.error"%string Hopen
                (wavfile_header_rate_out_of_range _ data Hrate)) as [-> ->].
    reflexivity. }
  split; [exact Hwritten|].
  intros Hopen Hrate Hsize. apply Hwritten; [assumption|].
  apply wavfile_header_in_range; [assumption|by rewrite Hlen].
Qed.

Lemma generate_wav_file_effect_witness :
  generate_wav_file (Stub.cfg None None None None true false) [] "a.wav"
    Stub.empty_world
  = (Raise "ValueError", Stub.empty_world)
  /\ exists data : ndarray,
       length data = 2%nat
       /\ generate_wav_file (Stub.cfg None None None None true false)
            [Np.of_Z 3; Np.of_Z (-4)] "a.wav" Stub.empty_world
          = (Ok tt,
             World {[ "a.wav"%string := WavFloat32 44100 data ]} ∅
               [Opened "a.wav"; Wrote "a.wav" (WavFloat32 44100 data)]).
Proof.
  split.
  - exact (proj1 (generate_wav_file_effect
                    (Stub.cfg None None None None true false) [] "a.wav"
                    Stub.empty_world) eq_refl).
  - destruct (proj2 (generate_wav_file_effect
                       (Stub.cfg None None None None true false)
                       [Np.of_Z 3; Np.of_Z (-4)] "a.wav" Stub.empty_world)
                ltac:(discriminate))
      as (data & _ & Hlen & _ & _ & _ & _ & Hrun).
    exists data. split; [exact Hlen|].
    exact (Hrun ltac:(apply not_elem_of_empty) ltac:(simpl; lia) ltac:(simpl; lia)).
Defined.

(** ** Configuration *)

Section Checkpoints.

Context {C : Collaborators}.


End Checkpoints.



(** ** The stages of [synthesis], further *)

Section SynthesisFlow.

Context {C : Collaborators}.

Variables (cfg : config) (device label_path : string).
Variables (timelag_model : Model) (timelag_config : ModelConfig).
Variables (timelag_in_scaler timelag_out_scaler : Scaler).
Variables (duration_model : Model) (duration_config : ModelConfig).
Variables (duration_in_scaler duration_out_scaler : Scaler).
Variables (acoustic_model : Model) (acoustic_config : ModelConfig).
Variables (acoustic_in_scaler acoustic_out_scaler : Scaler).

Local Abbreviation run_synthesis :=
  (synthesis cfg device label_path
     timelag_model timelag_config timelag_in_scaler timelag_out_scaler
     duration_model duration_config duration_in_scaler duration_out_scaler
     acoustic_model acoustic_config acoustic_in_scaler acoustic_out_scaler).

Local Abbreviation pitch_of b := [dict_len b; dict_len b + 1; dict_len b + 2].

(** X7: without [ground_truth_duration], a run of [synthesis] that returns
    has called the nine collaborators in one fixed order, and the timeline
    it returns is what [postprocess_duration] made of the loaded labels,
    the durations and the lag; the duration predictor was given the lag of
    the time-lag predictor, each stage its own question set. *)
Theorem synthesis_predicted_timeline (w : world)
    (duration_modified_labels : Labels) (f0 mgc bap wav : ndarray) :
  ground_truth_duration cfg = false ->
  fst (run_synthesis w) = Ok (duration_modified_labels, f0, mgc, bap, wav) ->
  exists (labels : Labels) (tb tc db dc : question_dict) (lag : Lag)
         (durations : Durations),
    hts_load label_path = Ok labels
    /\ hts_load_question_set
         (question_path (get_stage (set_each_question_path cfg) timelag)) false
       = Ok (tb, tc)
    /\ predict_timelag device labels timelag_model timelag_config
         timelag_in_scaler timelag_out_scaler tb tc (pitch_of tb)
         (log_f0_conditioning cfg) (allowed_range (cfg_timelag cfg)) = Ok lag
    /\ hts_load_question_set
         (question_path (get_stage (set_each_question_path cfg) duration)) false
       = Ok (db, dc)
    /\ predict_duration device labels duration_model duration_config
         duration_in_scaler duration_out_scaler lag db dc (pitch_of db)
         (log_f0_conditioning cfg) = Ok durations
    /\ postprocess_duration labels durations lag = Ok duration_modified_labels
    /\ trace (snd (run_synthesis w))
       = trace w ++
         [Called "hts.load"; Called "hts.load_question_set";
          Called "predict_timelag"; Called "hts.load_question_set";
          Called "predict_duration"; Called "postprocess_duration";
          Called "hts.load_question_set"; Called "predict_acoustic";
          Called "gen_waveform"].
Proof.
  intros Hgt.
  assert (ground_truth_duration (set_each_question_path cfg) = false) as Hgt'.
  { by rewrite (proj1 (set_each_question_path_flags cfg)). }
  unfold synthesis, resolve_timing, bind, call. rewrite Hgt'. unfold bind, call.
  rewrite !load_qst_run.
  rewrite (set_each_question_path_eq cfg). cbn [cfg_timelag cfg_duration cfg_acoustic
    question_path set_question_path log_f0_conditioning allowed_range
    subphone_features post_filter relative_f0 sample_rate frame_period].
  destruct (hts_load label_path) as [labels|e]; [|discriminate].
  destruct (hts_load_question_set _ false) as [[tb tc]|e] eqn:Htq; [|discriminate].
  destruct (predict_timelag _ _ _ _ _ _ _ _ _ _ _) as [lag|e] eqn:Hlag;
    [|discriminate].
  rewrite load_qst_run.
  destruct (hts_load_question_set
              (question_path (get_stage (set_each_question_path cfg) duration)) false)
    as [[db dc]|e] eqn:Hdq; [|discriminate].
  destruct (predict_duration _ _ _ _ _ _ _ _ _ _ _) as [durations|e] eqn:Hdur;
    [|discriminate].
  destruct (postprocess_duration _ _ _) as [dml|e] eqn:Hpost; [|discriminate].
  rewrite load_qst_run.
  destruct (hts_load_question_set
              (question_path (get_stage (set_each_question_path cfg) acoustic)) false)
    as [[ab ac]|e]; [|discriminate].
  destruct (predict_acoustic _ _ _ _ _ _ _ _ _ _ _) as [features|e]; [|discriminate].
  destruct (gen_waveform _ _ _ _ _ _ _ _ _ _ _ _ _ _) as [[[[f0' mgc'] bap'] wav']|e];
    [|discriminate].
  simpl. intros [= -> _ _ _ _].
  exists labels, tb, tc, db, dc, lag, durations.
  repeat split; try assumption. rewrite <- !app_assoc. reflexivity.
Qed.

(** X8: whichever way the timeline was obtained, the acoustic predictor
    and the vocoder are given that same timeline and the acoustic question
    set; the predictor gets the three pitch indices behind the binary
    questions, the vocoder the middle one. *)
Theorem synthesis_acoustic_inputs (w : world)
    (duration_modified_labels : Labels) (f0 mgc bap wav : ndarray) :
  fst (run_synthesis w) = Ok (duration_modified_labels, f0, mgc, bap, wav) ->
  exists (ab ac : question_dict) (features : Features),
    hts_load_question_set
      (question_path (get_stage (set_each_question_path cfg) acoustic)) false
    = Ok (ab, ac)
    /\ predict_acoustic device duration_modified_labels
         acoustic_model acoustic_config acoustic_in_scaler acoustic_out_scaler
         ab ac (subphone_features (cfg_acoustic cfg)) (pitch_of ab)
         (log_f0_conditioning cfg) = Ok features
    /\ gen_waveform duration_modified_labels features ab ac
         (stream_sizes acoustic_config) (has_dynamic_features acoustic_config)
         (subphone_features (cfg_acoustic cfg)) (log_f0_conditioning cfg)
         (dict_len ab + 1) (num_windows acoustic_config)
         (post_filter (cfg_acoustic cfg)) (sample_rate cfg) (frame_period cfg)
         (relative_f0 (cfg_acoustic cfg))
       = Ok (f0, mgc, bap, wav).
Proof.
  unfold synthesis, bind, call.
  destruct (hts_load label_path) as [labels|e]; [|discriminate].
  destruct (resolve_timing _ _ _ _ _ _ _ _ _ _ _ _) as [[dml|e] w2]; [|discriminate].
  rewrite load_qst_run.
  rewrite (set_each_question_path_eq cfg). cbn [cfg_timelag cfg_duration cfg_acoustic
    question_path set_question_path log_f0_conditioning allowed_range
    subphone_features post_filter relative_f0 sample_rate frame_period].
  destruct (hts_load_question_set _ false) as [[ab ac]|e] eqn:Hq; [|discriminate].
  destruct (predict_acoustic _ _ _ _ _ _ _ _ _ _ _) as [features|e] eqn:Hac;
    [|discriminate].
  destruct (gen_waveform _ _ _ _ _ _ _ _ _ _ _ _ _ _) as [[[[f0n mgcn] bapn] wavn]|e]
    eqn:Hgen; [|discriminate].
  simpl. intros [= <- <- <- <- <-].
  exists ab, ac, features. repeat split; assumption.
Qed.

(** X9: [synthesis] raises nothing of its own: an exception that none of
    its collaborators raises does not come out of it. *)
Theorem synthesis_raises_only_what_collaborators_raise (w : world) (e : exn) :
  (forall p, hts_load p <> Raise e) ->
  (forall p f, hts_load_question_set p f <> Raise e) ->
  (forall d l m c s1 s2 b1 b2 pi lf ar,
      predict_timelag d l m c s1 s2 b1 b2 pi lf ar <> Raise e) ->
  (forall d l m c s1 s2 lag b1 b2 pi lf,
      predict_duration d l m c s1 s2 lag b1 b2 pi lf <> Raise e) ->
  (forall l du lag, postprocess_duration l du lag <> Raise e) ->
  (forall d l m c s1 s2 b1 b2 sf pi lf,
      predict_acoustic d l m c s1 s2 b1 b2 sf pi lf <> Raise e) ->
  (forall l ft b1 b2 ss hd sf lf pi nw pf sr fp rf,
      gen_waveform l ft b1 b2 ss hd sf lf pi nw pf sr fp rf <> Raise e) ->
  fst (run_synthesis w) <> Raise e.
Proof.
  intros Hload Hqst Htl Hdur Hpost Hac Hgen.
  assert (forall labels w1,
             fst (resolve_timing (set_each_question_path cfg) device labels
                    timelag_model timelag_config timelag_in_scaler timelag_out_scaler
                    duration_model duration_config duration_in_scaler
                    duration_out_scaler w1) <> Raise e) as Htiming.
  { intros labels w1. unfold resolve_timing.
    destruct (ground_truth_duration _); [discriminate|].
    unfold bind, call. rewrite load_qst_run.
    destruct (hts_load_question_set _ false) as [[tb tc]|e0] eqn:H1;
      [|simpl; intros [= ->]; by eapply Hqst].
    destruct (predict_timelag _ _ _ _ _ _ _ _ _ _ _) as [lag|e0] eqn:H2;
      [|simpl; intros [= ->]; by eapply Htl].
    rewrite load_qst_run.
    destruct (hts_load_question_set
                (question_path (cfg_duration (set_each_question_path cfg))) false)
      as [[db dc]|e0] eqn:H3; [|simpl; intros [= ->]; by eapply Hqst].
    destruct (predict_duration _ _ _ _ _ _ _ _ _ _ _) as [durations|e0] eqn:H4;
      [|simpl; intros [= ->]; by eapply Hdur].
    destruct (postprocess_duration _ _ _) as [dml|e0] eqn:H5;
      [discriminate|simpl; intros [= ->]; by eapply Hpost]. }
  unfold synthesis, bind, call.
  destruct (hts_load label_path) as [labels|e0] eqn:H0;
    [|simpl; intros [= ->]; by eapply Hload].
  specialize (Htiming labels (log (Called "hts.load") w)).
  destruct (resolve_timing _ _ _ _ _ _ _ _ _ _ _ _) as [[dml|e0] w2];
    [|simpl in *; congruence].
  rewrite load_qst_run.
  destruct (hts_load_question_set _ false) as [[ab ac]|e0] eqn:H1;
    [|simpl; intros [= ->]; by eapply Hqst].
  destruct (predict_acoustic _ _ _ _ _ _ _ _ _ _ _) as [features|e0] eqn:H2;
    [|simpl; intros [= ->]; by eapply Hac].
  destruct (gen_waveform _ _ _ _ _ _ _ _ _ _ _ _ _ _) as [[[[f0 mgc] bap] wav]|e0]
    eqn:H3; [discriminate|simpl; intros [= ->]; by eapply Hgen].
Qed.

End SynthesisFlow.

Lemma synthesis_predicted_timeline_witness :
  hts_load (Collaborators := Stub.collaborators Stub.two_lines 2 [Np.of_Z 16000])
    "in.lab"
  = Ok Stub.two_lines.
Proof.
  destruct (@synthesis_predicted_timeline
              (Stub.collaborators Stub.two_lines 2 [Np.of_Z 16000])
              (Stub.cfg None None None (Some "q.hed"%string) false false)
              "cpu" "in.lab" tt tt tt tt tt tt tt tt tt tt tt tt
              Stub.empty_world Stub.two_lines
              [Np.of_Z 440] [Np.of_Z 1] [Np.of_Z 2] [Np.of_Z 16000]
              eq_refl eq_refl)
    as (labels & tb & tc & db & dc & lag & durations & Hload & _ & _ & _ & _
        & Hpost & _).
  injection Hpost as ->. exact Hload.
Defined.

Lemma synthesis_acoustic_inputs_witness :
  exists (ab ac : question_dict),
    hts_load_question_set
      (Collaborators := Stub.collaborators Stub.two_lines 2 [Np.of_Z 16000])
      (Some "q.hed"%string) false
    = Ok (ab, ac).
Proof.
  destruct (@synthesis_acoustic_inputs
              (Stub.collaborators Stub.two_lines 2 [Np.of_Z 16000])
              (Stub.cfg None None None (Some "q.hed"%string) true false)
              "cpu" "in.lab" tt tt tt tt tt tt tt tt tt tt tt tt
              Stub.empty_world Stub.two_lines
              [Np.of_Z 440] [Np.of_Z 1] [Np.of_Z 2] [Np.of_Z 16000] eq_refl)
    as (ab & ac & features & Hq & _).
  exists ab, ac. exact Hq.
Defined.

Lemma synthesis_raises_only_what_collaborators_raise_witness :
  fst (@synthesis (Stub.collaborators Stub.two_lines 2 [Np.of_Z 16000])
         (Stub.cfg None None None None false false)
         "cpu" "in.lab" tt tt tt tt tt tt tt tt tt tt tt tt Stub.empty_world)
  <> Raise "ConfigurationError".
Proof.
  apply (@synthesis_raises_only_what_collaborators_raise
           (Stub.collaborators Stub.two_lines 2 [Np.of_Z 16000]));
    try discriminate.
  intros [p|] f; discriminate.
Defined.

(** ** Paths of [hts2wav] *)

Section Paths.

Context {C : Collaborators}.

Local Abbreviation device := (if cuda_is_available then "cuda" else "cpu")%string.

(** X10: without a label path, neither as argument nor in the
    configuration, [hts2wav] raises [AssertionError]; by then the
    normalization statistics are set and the three models are loaded, but
    no label is read and no file is touched. *)
Theorem hts2wav_missing_label_path (cfg cfg' : config) (out_wav_path : option string)
    (t d a : ModelConfig * Model * Scaler * Scaler) (w : world) :
  maybe_set_normalization_stats_ (maybe_set_checkpoints_ cfg) = Ok cfg' ->
  load_stage device cfg' timelag = Ok t ->
  load_stage device cfg' duration = Ok d ->
  load_stage device cfg' acoustic = Ok a ->
  cfg_label_path cfg' = None ->
  hts2wav cfg None out_wav_path w
  = (Raise "AssertionError",
     World (files w) (denied w)
       (trace w ++ [Called "maybe_set_normalization_stats_"; Called "load timelag";
                    Called "load duration"; Called "load acoustic"])).
Proof.
  intros Hcfg Ht Hd Ha Hlabel.
  unfold hts2wav, bind, call. rewrite Hcfg, Ht, Hd, Ha.
  destruct t as [[[tc tm] tis] tos], d as [[[dc dm] dis] dos],
    a as [[[ac am] ais] aos].
  rewrite Hlabel. unfold raise, log. simpl. by rewrite <- !app_assoc.
Qed.

(** X11: without an output path, neither as argument nor in the
    configuration, [hts2wav] never succeeds and never touches a file; when
    everything before succeeds, the whole synthesis is run first and only
    then [AttributeError] is raised. *)
Theorem hts2wav_missing_out_wav_path (cfg : config) (label_path : option string)
    (w : world) :
  (forall cfg', maybe_set_normalization_stats_ (maybe_set_checkpoints_ cfg) = Ok cfg' ->
                cfg_out_wav_path cfg' = None) ->
  is_ok (fst (hts2wav cfg label_path None w)) = false
  /\ files (snd (hts2wav cfg label_path None w)) = files w
  /\ forall (cfg' : config) (tc dc ac : ModelConfig) (tm dm am : Model)
       (tis tos dis dos ais aos : Scaler) (lp : string)
       (r : Labels * ndarray * ndarray * ndarray * ndarray) (w1 : world),
      maybe_set_normalization_stats_ (maybe_set_checkpoints_ cfg) = Ok cfg' ->
      load_stage device cfg' timelag = Ok (tc, tm, tis, tos) ->
      load_stage device cfg' duration = Ok (dc, dm, dis, dos) ->
      load_stage device cfg' acoustic = Ok (ac, am, ais, aos) ->
      match label_path with
      | Some p => Some p
      | None => cfg_label_path cfg'
      end = Some lp ->
      synthesis cfg' device lp tm tc tis tos dm dc dis dos am ac ais aos
        (log (Called "load acoustic")
           (log (Called "load duration")
              (log (Called "load timelag")
                 (log (Called "maybe_set_normalization_stats_") w))))
      = (Ok r, w1) ->
      hts2wav cfg label_path None w = (Raise "AttributeError", w1).
Proof.
  intros Hnone. split; [|split].
  - destruct (hts2wav_reaches_outputs cfg label_path None w)
      as [[Hfail _]|(cfg' & out & ? & ? & ? & ? & ? & ? & _ & _ & Hcfg & Hout & _)];
      [assumption|].
    rewrite (Hnone _ Hcfg) in Hout. discriminate.
  - destruct (hts2wav_reaches_outputs cfg label_path None w)
      as [[_ Hfiles]|(cfg' & out & ? & ? & ? & ? & ? & ? & _ & _ & Hcfg & Hout & _)];
      [assumption|].
    rewrite (Hnone _ Hcfg) in Hout. discriminate.
  - intros cfg' tc dc ac tm dm am tis tos dis dos ais aos lp r w1
      Hcfg Ht Hd Ha Hlp Hsyn.
    unfold hts2wav, bind, call. rewrite Hcfg, Ht, Hd, Ha.
    assert (match label_path with
            | Some p => ret p
            | None => match cfg_label_path cfg' with
                      | Some p => ret p
                      | None => raise "AssertionError"
                      end
            end
            = ret lp) as ->.
    { destruct label_path as [p|]; [by injection Hlp as ->|]. by rewrite Hlp. }
    unfold ret at 1. rewrite Hsyn.
    destruct r as [[[[labels f0] sp] bap] wav].
    by rewrite (Hnone _ Hcfg).
Qed.

Variables (cfg : config) (stem : string).
Variables (duration_modified_labels : Labels) (f0 sp bap wav : ndarray).

(** X12: for an output path [stem.wav] whose stem does not contain [.wav],
    the other four paths are [stem_timing.lab], [stem.f0], [stem.mgc] and
    [stem.bap]; after a successful run each of the five files holds its own
    content. *)
Theorem write_outputs_same_stem (w : world) :
  ~ occurs_in ".wav" stem ->
  (forall new : string,
      Py.replace (stem ++ ".wav") ".wav" new = (stem ++ new)%string)
  /\ (fst (write_outputs cfg (stem ++ ".wav") duration_modified_labels
            f0 sp bap wav w) = Ok tt ->
      exists (s : string) (data : ndarray),
        timing_text "" (Py.splitlines (labels_str duration_modified_labels)) = Ok s
        /\ normalize_wav (gain_normalize cfg) wav = Ok data
        /\ let fs := files (snd (write_outputs cfg (stem ++ ".wav")
                                   duration_modified_labels f0 sp bap wav w)) in
           fs !! (stem ++ "_timing.lab")%string = Some (Text s)
           /\ fs !! (stem ++ ".f0")%string = Some (Float64Dump f0)
           /\ fs !! (stem ++ ".mgc")%string = Some (Float64Dump sp)
           /\ fs !! (stem ++ ".bap")%string = Some (Float64Dump bap)
           /\ fs !! (stem ++ ".wav")%string
              = Some (WavFloat32 (sample_rate cfg) data)).
Proof.
  intros Hstem.
  assert (forall new : string,
             Py.replace (stem ++ ".wav") ".wav" new = (stem ++ new)%string) as Hpath.
  { intros new.
    pose proof (replace_wav_everywhere stem "" new) as Hrep.
    rewrite (replace_no_occurrence stem ".wav" new eq_refl Hstem) in Hrep.
    change (Py.replace "" ".wav" new) with ""%string in Hrep.
    by rewrite !append_empty_r in Hrep. }
  split; [assumption|].
  intros Hok.
  destruct (write_outputs_run cfg (stem ++ ".wav") duration_modified_labels
              f0 sp bap wav w) as (evs & _ & Hw & Hiff).
  apply Hiff in Hok as Hplan. subst evs.
  assert (exists s data,
             timing_text "" (Py.splitlines (labels_str duration_modified_labels)) = Ok s
             /\ normalize_wav (gain_normalize cfg) wav = Ok data)
    as (s & data & Hs & Hdata).
  { revert Hok.
    unfold write_outputs, write_timing_lab, dump_float64, generate_wav_file,
      wavfile_write, normalize_wav, bind, open_w, write, lift.
    destruct (bool_decide _); [discriminate|].
    destruct (timing_text _ _) as [s|e]; [|discriminate].
    simpl. destruct (bool_decide _); [discriminate|].
    simpl. destruct (bool_decide _); [discriminate|].
    simpl. destruct (bool_decide _); [discriminate|].
    simpl. destruct (bit_depth_step wav) as [wav1|e]; [|discriminate].
    destruct (gain_step _ wav1) as [wav2|e]; [|discriminate].
    eauto. }
  exists s, data. split; [assumption|]. split; [assumption|].
  cbv zeta. rewrite Hw. unfold planned_writes. rewrite !Hpath, Hs, Hdata.
  cbn [files replay foldl from_ok].
  assert (forall a b : string, a <> b -> (stem ++ a)%string <> (stem ++ b)%string)
    as Hne.
  { intros a b Hab Heq. by apply (inj (String.app stem)) in Heq. }
  repeat split;
    repeat (first [ apply lookup_insert_eq
                  | rewrite lookup_insert_ne by (apply Hne; discriminate) ]).
Qed.

End Paths.

Lemma hts2wav_missing_label_path_witness :
  fst (@hts2wav (Stub.collaborators Stub.two_lines 2 [Np.of_Z 16000])
         (Stub.cfg None None None None true false) None (Some "out.wav"%string)
         Stub.empty_world)
  = Raise "AssertionError".
Proof.
  rewrite (@hts2wav_missing_label_path
             (Stub.collaborators Stub.two_lines 2 [Np.of_Z 16000])
             (Stub.cfg None None None None true false) _ (Some "out.wav"%string)
             (tt, tt, tt, tt) (tt, tt, tt, tt) (tt, tt, tt, tt) Stub.empty_world
             eq_refl eq_refl eq_refl eq_refl eq_refl).
  reflexivity.
Defined.

Lemma hts2wav_missing_out_wav_path_witness :
  is_ok (fst (@hts2wav (Stub.collaborators Stub.two_lines 2 [Np.of_Z 16000])
                (Stub.cfg None None None (Some "q.hed"%string) true false)
                (Some "in.lab"%string) None Stub.empty_world)) = false.
Proof.
  refine (proj1 (@hts2wav_missing_out_wav_path
                   (Stub.collaborators Stub.two_lines 2 [Np.of_Z 16000])
                   (Stub.cfg None None None (Some "q.hed"%string) true false)
                   (Some "in.lab"%string) Stub.empty_world _)).
  intros cfg' [= <-]. reflexivity.
Defined.

Lemma write_outputs_same_stem_witness :
  Py.replace "song.wav" ".wav" "_timing.lab" = "song_timing.lab"%string.
Proof.
  refine (proj1 (@write_outputs_same_stem
                   (Stub.collaborators Stub.two_lines 2 [Np.of_Z 16000])
                   (Stub.cfg None None None None true false) "song" Stub.two_lines
                   [Np.of_Z 440] [Np.of_Z 1] [Np.of_Z 2] [Np.of_Z 16000]
                   Stub.empty_world _) "_timing.lab"%string).
  apply find_none_not_occurs. reflexivity.
Defined.

(** ** The lines of the timing file, further *)

Section Lines.

Local Open Scope string_scope.
Local Arguments String.append !_ _ / : simpl nomatch.

Lemma split_from_spaces (ws rest : string) :
  all_space ws = true -> Py.split_from "" (ws ++ rest) = Py.split_from "" rest.
Proof.
  induction ws as [|c ws IH]; intros Hws; [reflexivity|].
  simpl in Hws. apply andb_true_iff in Hws as [Hc Hws].
  cbn [String.append Py.split_from]. rewrite Hc. simpl. by apply IH.
Qed.

Lemma split_from_spaces_after_token (cur ws rest : string) :
  Py.is_empty cur = false -> all_space ws = true -> Py.is_empty ws = false ->
  Py.split_from cur (ws ++ rest) = cur :: Py.split_from "" rest.
Proof.
  intros Hcur Hws Hne. destruct ws as [|c ws]; [discriminate|].
  simpl in Hws. apply andb_true_iff in Hws as [Hc Hws].
  cbn [String.append Py.split_from]. rewrite Hc, Hcur.
  by rewrite split_from_spaces.
Qed.

Lemma split_from_trailing_spaces (cur ws : string) :
  Py.is_empty cur = false -> all_space ws = true -> Py.split_from cur ws = [cur].
Proof.
  intros Hcur Hws. destruct ws as [|c ws]; [by apply split_from_end|].
  simpl in Hws. apply andb_true_iff in Hws as [Hc Hws].
  cbn [Py.split_from]. rewrite Hc, Hcur.
  rewrite <- (append_empty_r ws). by rewrite split_from_spaces.
Qed.

(** Three tokens, whatever whitespace stands around and between them. *)
Lemma split_padded (p0 t1 p1 t2 p2 t3 p3 : string) :
  all_space p0 = true -> all_space p1 = true -> all_space p2 = true ->
  all_space p3 = true -> Py.is_empty p1 = false -> Py.is_empty p2 = false ->
  is_token t1 = true -> is_token t2 = true -> is_token t3 = true ->
  Py.split (p0 ++ t1 ++ p1 ++ t2 ++ p2 ++ t3 ++ p3) = [t1; t2; t3].
Proof.
  intros H0 H1 H2 H3 N1 N2 [E1 S1]%is_token_parts [E2 S2]%is_token_parts
    [E3 S3]%is_token_parts.
  unfold Py.split. rewrite split_from_spaces by assumption.
  rewrite split_from_token by assumption. cbn [String.append].
  rewrite split_from_spaces_after_token by assumption.
  rewrite split_from_token by assumption. cbn [String.append].
  rewrite split_from_spaces_after_token by assumption.
  rewrite split_from_token by assumption. cbn [String.append].
  by rewrite split_from_trailing_spaces.
Qed.

Lemma find_from_absent (i : Z) (c : ascii) (s : string) :
  lacks c s = true -> Py.find_from i (String c "") s = (-1)%Z.
Proof.
  revert i. induction s as [|c' s IH]; intros i Hs; [reflexivity|].
  simpl in Hs. apply andb_true_iff in Hs as [Hc Hs].
  apply negb_true_iff, Ascii.eqb_neq in Hc.
  cbn [Py.find_from]. unfold Py.startswith. simpl.
  destruct (ascii_dec c c'); [congruence|]. by apply IH.
Qed.

Lemma substring_0_0 (s : string) : String.substring 0 0 s = "".
Proof. by destruct s. Qed.

(** [s[0:-1]] is [s] without its last character. *)
Lemma slice_without_last (s : string) :
  Py.slice s 0 (-1) = String.substring 0 (String.length s - 1) s.
Proof.
  unfold Py.slice. pose proof (len_nonneg s) as Hlen.
  rewrite (clamp_in_range _ 0) by lia.
  assert (Py.clamp (Py.len s) (-1) = Z.max (-1 + Py.len s) 0) as -> by reflexivity.
  unfold Py.len in *.
  destruct (Z.ltb_spec 0 (Z.max (-1 + Z.of_nat (String.length s)) 0)) as [Hlt|Hge].
  - f_equal. lia.
  - replace (String.length s - 1)%nat with 0%nat by lia.
    by rewrite substring_0_0.
Qed.

Lemma splitlines_from_line (cur : string) (pending : bool) (l rest : string) :
  no_linebreak l = true ->
  Py.splitlines_from cur pending false (l ++ String "010" rest)
  = (cur ++ l) :: Py.splitlines_from "" false false rest.
Proof.
  revert cur pending. induction l as [|c l IH]; intros cur pending Hl.
  - cbn [String.append Py.splitlines_from]. simpl. by rewrite append_empty_r.
  - simpl in Hl. apply andb_true_iff in Hl as [Hc Hl].
    apply negb_true_iff in Hc.
    cbn [String.append Py.splitlines_from]. rewrite Hc. cbn [andb].
    rewrite IH by assumption. by rewrite snoc_append.
Qed.

(** Lines that are written one per line are read back one per line. *)
Lemma splitlines_unlines (lines : list string) :
  Forall (fun l => no_linebreak l = true) lines ->
  Py.splitlines (unlines lines) = lines.
Proof.
  unfold Py.splitlines.
  induction 1 as [|l lines Hl _ IH]; [reflexivity|].
  cbn [unlines foldr]. rewrite splitlines_from_line by assumption.
  simpl. f_equal. exact IH.
Qed.

End Lines.

(** X13: the loop over the lines is all or nothing: when every line splits
    into three tokens, the text is the lines of the loop body in order;
    when one does not, the loop raises [ValueError] and yields no text. *)
Theorem timing_text_all_or_nothing (lines : list string) :
  (Forall (fun line => length (Py.split line) = 3%nat) lines ->
     exists outs : list string,
       Forall2 (fun line out => timing_line line = Ok out) lines outs
       /\ timing_text "" lines = Ok (String.concat "" outs))
  /\ (~ Forall (fun line => length (Py.split line) = 3%nat) lines ->
      timing_text "" lines = Raise "ValueError").
Proof.
  split.
  - intros Hall.
    assert (exists outs, Forall2 (fun line out => timing_line line = Ok out) lines outs)
      as [outs Houts].
    { induction Hall as [|line lines Hline _ [outs IH]]; [by exists []|].
      unfold timing_line in *.
      destruct (Py.split line) as [|t1 [|t2 [|t3 [|t4 rest]]]] eqn:Hsplit;
        try discriminate.
      eexists (_ :: outs). constructor; [|exact IH].
      unfold timing_line. rewrite Hsplit. reflexivity. }
    exists outs. split; [assumption|].
    by rewrite (timing_text_lines lines outs "" Houts).
  - intros Hnot. apply timing_text_raises.
    apply not_Forall_Exists in Hnot; [assumption|]. intros line. apply _.
Qed.

Lemma timing_text_all_or_nothing_witness :
  timing_text "" ["0 50 a^b-c+d=e"; "50 100"]%string = Raise "ValueError".
Proof.
  apply (proj2 (timing_text_all_or_nothing ["0 50 a^b-c+d=e"; "50 100"]%string)).
  intros Hall. apply Forall_cons in Hall as [_ Hall].
  apply Forall_cons in Hall as [Hbad _]. vm_compute in Hbad. discriminate.
Defined.

(** X14: the whitespace of a label line does not matter: blanks or tabs
    before, between and after the three tokens give the same line of the
    timing file, in which single blanks separate the fields. *)
Theorem timing_line_ignores_spacing (p0 t_start p1 t_end p2 context p3 : string) :
  all_space p0 = true -> all_space p1 = true -> all_space p2 = true ->
  all_space p3 = true -> Py.is_empty p1 = false -> Py.is_empty p2 = false ->
  is_token t_start = true -> is_token t_end = true -> is_token context = true ->
  timing_line (p0 ++ t_start ++ p1 ++ t_end ++ p2 ++ context ++ p3)%string
  = Ok (t_start ++ " " ++ t_end ++ " "
        ++ Py.slice context (Py.find context "-" + 1) (Py.find context "+")
        ++ String "010" "")%string.
Proof.
  intros. unfold timing_line. by rewrite split_padded.
Qed.

Lemma timing_line_ignores_spacing_witness :
  timing_line ("  0" ++ String "009" ("50   a^b-c+d=e "))%string
  = Ok ("0 50 c" ++ String "010" "")%string.
Proof.
  exact (timing_line_ignores_spacing "  " "0" (String "009" "") "50" "   "
           "a^b-c+d=e" " "
           eq_refl eq_refl eq_refl eq_refl eq_refl eq_refl eq_refl eq_refl eq_refl).
Defined.

(** X15: a context with neither [-] nor [+], as in a monophone label,
    loses its last character: the slice runs from the start to the last
    character but one. *)
Theorem timing_line_plain_context (t_start t_end context : string) :
  is_token t_start = true -> is_token t_end = true -> is_token context = true ->
  lacks "-" context = true -> lacks "+" context = true ->
  timing_line (t_start ++ " " ++ t_end ++ " " ++ context)%string
  = Ok (t_start ++ " " ++ t_end ++ " "
        ++ String.substring 0 (String.length context - 1) context
        ++ String "010" "")%string.
Proof.
  intros Hs He Hc Hminus Hplus. unfold timing_line.
  rewrite split_three by assumption.
  unfold Py.find. rewrite !find_from_absent by assumption.
  change (-1 + 1)%Z with 0%Z. by rewrite slice_without_last.
Qed.

Lemma timing_line_plain_context_witness :
  timing_line "0 50 pau" = Ok ("0 50 pa" ++ String "010" "")%string.
Proof.
  exact (timing_line_plain_context "0" "50" "pau"
           eq_refl eq_refl eq_refl eq_refl eq_refl).
Defined.

(** X16: a context whose first [+] comes before its first [-] gives an
    empty phoneme: the slice would have to run backwards. *)
Theorem timing_line_plus_before_minus (t_start t_end l m r : string) :
  is_token t_start = true -> is_token t_end = true ->
  no_space (l ++ "+" ++ m ++ "-" ++ r)%string = true ->
  lacks "-" l = true -> lacks "+" l = true -> lacks "-" m = true ->
  timing_line (t_start ++ " " ++ t_end ++ " " ++ l ++ "+" ++ m ++ "-" ++ r)%string
  = Ok (t_start ++ " " ++ t_end ++ " " ++ String "010" "")%string.
Proof.
  intros Hs He Hctx Hminus Hplus Hm. unfold timing_line.
  rewrite (split_three t_start t_end (l ++ "+" ++ m ++ "-" ++ r)%string);
    [|assumption..|unfold is_token; rewrite Hctx; by destruct l].
  assert (Py.find (l ++ "+" ++ m ++ "-" ++ r)%string "+" = Py.len l) as ->.
  { unfold Py.find.
    change (l ++ "+" ++ m ++ "-" ++ r)%string
      with (l ++ String "+" (m ++ "-" ++ r))%string.
    by rewrite find_from_char. }
  assert (Py.find (l ++ "+" ++ m ++ "-" ++ r)%string "-"
          = (Py.len l + 1 + Py.len m)%Z) as ->.
  { unfold Py.find.
    replace (l ++ "+" ++ m ++ "-" ++ r)%string
      with ((l ++ "+" ++ m) ++ String "-" r)%string
      by (by rewrite !append_assoc).
    rewrite find_from_char.
    - rewrite !len_append. unfold Py.len. simpl. lia.
    - rewrite !lacks_append, Hminus, Hm. reflexivity. }
  assert (Py.slice (l ++ "+" ++ m ++ "-" ++ r)%string
            (Py.len l + 1 + Py.len m + 1) (Py.len l) = ""%string) as ->.
  { unfold Py.slice.
    pose proof (len_nonneg l). pose proof (len_nonneg m).
    pose proof (len_nonneg (l ++ "+" ++ m ++ "-" ++ r)%string).
    assert (Py.len (l ++ "+" ++ m ++ "-" ++ r)%string
            = (Py.len l + 1 + Py.len m + 1 + Py.len r)%Z) as Hlen.
    { rewrite !len_append. unfold Py.len. simpl. lia. }
    pose proof (len_nonneg r).
    rewrite !clamp_in_range by lia.
    destruct (Z.ltb_spec (Py.len l + 1 + Py.len m + 1) (Py.len l)); [lia|reflexivity]. }
  reflexivity.
Qed.

Lemma timing_line_plus_before_minus_witness :
  timing_line "0 50 a+b-c+d" = Ok ("0 50 " ++ String "010" "")%string.
Proof.
  exact (timing_line_plus_before_minus "0" "50" "a" "b" "c+d"
           eq_refl eq_refl eq_refl eq_refl eq_refl eq_refl).
Defined.

Section TimingFile.

Context {C : Collaborators}.

(** X17: when the stringified timeline is one label line per line, the
    timing file gets one line per label line, in the same order: its text
    is the text of the loop body for each line, one after the other. *)
Theorem write_timing_lab_line_by_line (path : string) (labels : Labels)
    (lines outs : list string) (w : world) :
  labels_str labels = unlines lines ->
  Forall (fun l => no_linebreak l = true) lines ->
  Forall2 (fun line out => timing_line line = Ok out) lines outs ->
  path ∉ denied w ->
  write_timing_lab path labels w
  = (Ok tt,
     World (<[path := Text (String.concat "" outs)]> (files w)) (denied w)
       (trace w ++ [Opened path; Wrote path (Text (String.concat "" outs))])).
Proof.
  intros Hstr Hlines Houts Hopen.
  unfold write_timing_lab, bind, open_w, write, lift.
  rewrite bool_decide_eq_false_2 by assumption.
  rewrite Hstr, splitlines_unlines by assumption.
  rewrite (timing_text_lines lines outs "" Houts). simpl.
  by rewrite insert_insert_eq, <- app_assoc.
Qed.

End TimingFile.

Lemma write_timing_lab_line_by_line_witness :
  fst (@write_timing_lab (Stub.collaborators Stub.two_lines 2 [])
         "song_timing.lab" Stub.two_lines Stub.empty_world) = Ok tt.
Proof.
  rewrite (@write_timing_lab_line_by_line (Stub.collaborators Stub.two_lines 2 [])
             "song_timing.lab" Stub.two_lines
             ["0 50 a^b-c+d=e"; "50 100 b^c-d+e=f"]%string
             [("0 50 c" ++ String "010" "")%string;
              ("50 100 d" ++ String "010" "")%string]
             Stub.empty_world eq_refl).
  - reflexivity.
  - repeat constructor.
  - repeat constructor.
  - apply not_elem_of_empty.
Defined.

(** ** The command line *)

Section Quotes.

Local Open Scope string_scope.
Local Arguments String.append !_ _ / : simpl nomatch.

Lemma mem_dquote (c : ascii) : Py.mem c Py.dquote = Ascii.eqb c "034".
Proof. unfold Py.dquote. simpl. apply orb_false_r. Qed.

Lemma rstrip_lacks (p : string) :
  lacks "034" p = true -> Py.rstrip Py.dquote p = p.
Proof.
  induction p as [|c p IH]; intros Hp; [reflexivity|].
  simpl in Hp. apply andb_true_iff in Hp as [Hc Hp]. apply negb_true_iff in Hc.
  cbn [Py.rstrip]. rewrite IH by assumption.
  by rewrite mem_dquote, Hc, andb_false_r.
Qed.

Lemma rstrip_trailing_quote (p : string) :
  lacks "034" p = true -> Py.rstrip Py.dquote (p ++ Py.dquote) = p.
Proof.
  induction p as [|c p IH]; intros Hp; [reflexivity|].
  simpl in Hp. apply andb_true_iff in Hp as [Hc Hp]. apply negb_true_iff in Hc.
  cbn [String.append Py.rstrip]. rewrite IH by assumption.
  by rewrite mem_dquote, Hc, andb_false_r.
Qed.

Lemma lstrip_lacks (p rest : string) :
  lacks "034" p = true -> Py.is_empty p = false ->
  Py.lstrip Py.dquote (p ++ rest) = p ++ rest.
Proof.
  intros Hp Hne. destruct p as [|c p]; [discriminate|].
  simpl in Hp. apply andb_true_iff in Hp as [Hc Hp]. apply negb_true_iff in Hc.
  cbn [String.append Py.lstrip]. by rewrite mem_dquote, Hc.
Qed.

(** A path without double quotes, bare or between two of them, is what
    [strip] leaves. *)
Lemma strip_quotes (q p : string) :
  q = "" \/ q = Py.dquote -> lacks "034" p = true -> Py.is_empty p = false ->
  Py.strip Py.dquote (q ++ p ++ q) = p.
Proof.
  intros [->| ->] Hp Hne; unfold Py.strip.
  - cbn [String.append]. rewrite append_empty_r.
    rewrite <- (append_empty_r p) at 1.
    rewrite lstrip_lacks, append_empty_r by assumption. by apply rstrip_lacks.
  - change (Py.dquote ++ p ++ Py.dquote) with (String "034" (p ++ Py.dquote)).
    cbn [Py.lstrip]. change (Py.mem "034" Py.dquote) with true. cbv iota.
    rewrite lstrip_lacks by assumption. by apply rstrip_trailing_quote.
Qed.

(** The extension of [stem.wav] is the one occurrence there is to replace. *)
Lemma replace_wav_extension (stem new : string) :
  ~ occurs_in ".wav" stem ->
  Py.replace (stem ++ ".wav") ".wav" new = stem ++ new.
Proof.
  intros Hstem.
  pose proof (replace_wav_everywhere stem "" new) as Hrep.
  rewrite (replace_no_occurrence stem ".wav" new eq_refl Hstem) in Hrep.
  change (Py.replace "" ".wav" new) with "" in Hrep.
  by rewrite !append_empty_r in Hrep.
Qed.

End Quotes.

Section CommandLine.

Context {C : Collaborators} {S : Shell}.

(** X18: with three arguments on the command line [main] reads nothing from
    standard input.  The double quotes around the arguments are dropped, the
    configuration is composed from the first, and [hts2wav] is run on the
    label path and on the output path with the time stamp put before its
    [.wav]: [stem.wav] becomes [stem__now.wav]. *)
Theorem main_command_line (a0 a1 a2 a3 : string) (rest stdin : list string)
    (config_path config_name rel q stem : string) (cfg : config) (w : world) :
  os_path_split (Py.strip Py.dquote a1) = (config_path, config_name) ->
  os_path_relpath config_path = Ok rel ->
  hydra_initialize rel = Ok tt ->
  hydra_compose config_name [("+config_path=" ++ config_path)%string] = Ok cfg ->
  a3 = (q ++ (stem ++ ".wav") ++ q)%string ->
  q = ""%string \/ q = Py.dquote ->
  lacks "034" stem = true ->
  ~ occurs_in ".wav" stem ->
  main (a0 :: a1 :: a2 :: a3 :: rest) stdin w
  = hts2wav cfg (Some (Py.strip Py.dquote a2))
      (Some (stem ++ "__" ++ now_strftime "%Y%m%d%h%M%S" ++ ".wav")%string)
      (World (files w) (denied w)
         (trace w ++ [Called "os.path.relpath"; Called "hydra.initialize";
                      Called "hydra.compose"])).
Proof.
  intros Hsplit Hrel Hinit Hcompose -> Hq Hstem Hwav.
  unfold main, bind, ret, call. rewrite Hsplit, Hrel, Hinit, Hcompose.
  rewrite strip_quotes; [|assumption| |by destruct stem].
  - rewrite replace_wav_extension by assumption.
    unfold log. simpl. by rewrite <- !app_assoc.
  - rewrite lacks_append, Hstem. reflexivity.
Qed.

(** X19: with fewer than three arguments [main] asks for the configuration
    and the label path; the output path is the label path with its
    extension replaced by [.wav], so the audio goes to [root__now.wav] next
    to the label file.  When standard input ends before both answers are
    given, [EOFError] is raised before any configuration is read. *)
Theorem main_interactive (argv : list string) (l1 l2 : string) (more : list string)
    (config_path config_name rel root ext : string) (cfg : config) (w : world) :
  (length argv < 4)%nat ->
  main argv [] w = (Raise "EOFError", log (Called "input") w)
  /\ main argv [l1] w = (Raise "EOFError", log (Called "input") (log (Called "input") w))
  /\ (os_path_split (Py.strip Py.dquote l1) = (config_path, config_name) ->
      os_path_relpath config_path = Ok rel ->
      hydra_initialize rel = Ok tt ->
      hydra_compose config_name [("+config_path=" ++ config_path)%string] = Ok cfg ->
      os_path_splitext (Py.strip Py.dquote l2) = (root, ext) ->
      ~ occurs_in ".wav" root ->
      main argv (l1 :: l2 :: more) w
      = hts2wav cfg (Some (Py.strip Py.dquote l2))
          (Some (root ++ "__" ++ now_strftime "%Y%m%d%h%M%S" ++ ".wav")%string)
          (World (files w) (denied w)
             (trace w ++ [Called "input"; Called "input"; Called "os.path.relpath";
                          Called "hydra.initialize"; Called "hydra.compose"]))).
Proof.
  intros Hargv.
  unfold main.
  repeat split.
  - destruct argv as [|? [|? [|? [|? ?]]]]; simpl in Hargv; (reflexivity || lia).
  - destruct argv as [|? [|? [|? [|? ?]]]]; simpl in Hargv; (reflexivity || lia).
  - intros Hsplit Hrel Hinit Hcompose Hext Hwav.
    assert (forall k : string * string * string -> M unit,
               bind (match argv with
                     | _ :: b1 :: b2 :: b3 :: _ =>
                         ret (Py.strip Py.dquote b1, Py.strip Py.dquote b2,
                              Py.strip Py.dquote b3)
                     | _ =>
                         do (voicebank_config_yaml_path, stdin) <-
                           input_stripped (l1 :: l2 :: more);
                         do (label_path, _) <- input_stripped stdin;
                         ret (voicebank_config_yaml_path, label_path,
                              (fst (os_path_splitext label_path) ++ ".wav")%string)
                     end) k w
               = k (Py.strip Py.dquote l1, Py.strip Py.dquote l2,
                    (root ++ ".wav")%string)
                   (log (Called "input") (log (Called "input") w))) as Hread.
    { intros k. destruct argv as [|? [|? [|? [|? ?]]]]; simpl in Hargv; try lia;
        unfold bind, input_stripped, call, ret; by rewrite Hext. }
    rewrite Hread. rewrite Hsplit.
    unfold bind, call. rewrite Hrel, Hinit, Hcompose.
    rewrite replace_wav_extension by assumption.
    unfold log. simpl. by rewrite <- !app_assoc.
Qed.

End CommandLine.

Lemma main_command_line_witness :
  fst (@main (Stub.collaborators Stub.two_lines 2 [Np.of_Z 16000])
         (Stub.shell (Stub.cfg None None None (Some "q.hed"%string) true false)
            "20240131Jan0000")
         ["hts2wav.py"; "voice/config.yaml"; "song.lab";
          (Py.dquote ++ "out/song.wav" ++ Py.dquote)]%string [] Stub.empty_world)
  = Ok tt.
Proof.
  rewrite (@main_command_line (Stub.collaborators Stub.two_lines 2 [Np.of_Z 16000])
             (Stub.shell (Stub.cfg None None None (Some "q.hed"%string) true false)
                "20240131Jan0000")
             "hts2wav.py" "voice/config.yaml" "song.lab"
             (Py.dquote ++ "out/song.wav" ++ Py.dquote)%string [] []
             "voice" "config.yaml" "voice" Py.dquote "out/song"
             (Stub.cfg None None None (Some "q.hed"%string) true false)
             Stub.empty_world
             eq_refl eq_refl eq_refl eq_refl eq_refl (or_intror eq_refl) eq_refl
             (find_none_not_occurs ".wav" "out/song" eq_refl)).
  reflexivity.
Defined.

Lemma main_interactive_witness :
  fst (@main (Stub.collaborators Stub.two_lines 2 [Np.of_Z 16000])
         (Stub.shell (Stub.cfg None None None (Some "q.hed"%string) true false)
            "20240131Jan0000")
         ["hts2wav.py"]%string [] Stub.empty_world)
  = Raise "EOFError".
Proof.
  rewrite (proj1 (@main_interactive
                    (Stub.collaborators Stub.two_lines 2 [Np.of_Z 16000])
                    (Stub.shell (Stub.cfg None None None (Some "q.hed"%string) true false)
                       "20240131Jan0000")
                    ["hts2wav.py"]%string "" "" [] "" "" "" "" ""
                    (Stub.cfg None None None (Some "q.hed"%string) true false)
                    Stub.empty_world ltac:(simpl; lia))).
  reflexivity.
Defined.
